(** * ThreadServices: a shallow embedding of [src/services/ThreadServices.ts]

    The five request handlers of the Thread resource ([add], [findAll],
    [findOne], [updateOne], [deleteOne]) are embedded as computations in
    a small state-and-exception monad over an in-memory relational store.
    The regular expression that guards the identifier, the page
    arithmetic of [findAll] and the order of the store calls are
    transcribed from the TypeScript text. *)

From Stdlib Require Import ZArith Ascii String List Bool Lia.
From Stdlib Require Import DecimalString DecimalPos DecimalN.
From stdpp Require Import base option list gmap strings fin_maps sorting.

Local Open Scope string_scope.
Local Open Scope list_scope.

(** ** Regular expressions, as far as the services use them

    The only pattern in the file is a sequence of one-character atoms,
    each repeated a fixed number of times, between [^] and [$], with no
    flags. *)
Module Regex.

(** An item between square brackets. *)
Inductive ClassItem :=
| CRange (lo hi : ascii)   (* a-f *)
| CDigit                   (* \d, which is [0-9] when the u and i flags are off *)
| CChar (c : ascii).       (* a single listed character *)

Inductive Atom :=
| Lit (c : ascii)
| Set_ (items : list ClassItem).

(** [a{n}]; an atom without a quantifier has count 1. *)
Definition Piece : Type := Atom * nat.

(** [^ p1 p2 ... pk $] *)
Definition Anchored : Type := list Piece.

Definition code (c : ascii) : nat := nat_of_ascii c.

Definition item_matches (i : ClassItem) (c : ascii) : bool :=
  match i with
  | CRange lo hi => (code lo <=? code c)%nat && (code c <=? code hi)%nat
  | CDigit => (48 <=? code c)%nat && (code c <=? 57)%nat
  | CChar d => Ascii.eqb c d
  end.

Definition atom_matches (a : Atom) (c : ascii) : bool :=
  match a with
  | Lit d => Ascii.eqb c d
  | Set_ items => existsb (fun i => item_matches i c) items
  end.

(** Consume exactly [n] characters that match [a]. *)
Fixpoint eat (a : Atom) (n : nat) (s : list ascii) : option (list ascii) :=
  match n with
  | O => Some s
  | S n' =>
      match s with
      | c :: s' => if atom_matches a c then eat a n' s' else None
      | [] => None
      end
  end.

(** Match from the first character ([^]) to the end of input ([$]). *)
Fixpoint match_pieces (ps : Anchored) (s : list ascii) : bool :=
  match ps with
  | [] => match s with [] => true | _ :: _ => false end
  | (a, n) :: ps' =>
      match eat a n s with
      | Some rest => match_pieces ps' rest
      | None => false
      end
  end.

(** [RegExp.prototype.test] *)
Definition test (re : Anchored) (s : string) : bool :=
  match_pieces re (list_ascii_of_string s).

Definition width (re : Anchored) : nat :=
  fold_right (fun p acc => (snd p + acc)%nat) 0%nat re.

End Regex.

Import Regex.

(** [[a-f\d]] *)
Definition hexClass : Atom := Set_ [CRange "a" "f"; CDigit].

(** [[89aAbB]] *)
Definition variantClass : Atom :=
  Set_ [CChar "8"; CChar "9"; CChar "a"; CChar "A"; CChar "b"; CChar "B"].

(** [/^[a-f\d]{8}-[a-f\d]{4}-4[a-f\d]{3}-[89aAbB][a-f\d]{3}-[a-f\d]{12}$/],
    the literal that [findOne], [updateOne] and [deleteOne] each carry. *)
Definition uuidRegex : Anchored :=
  [ (hexClass, 8); (Lit "-", 1);
    (hexClass, 4); (Lit "-", 1);
    (Lit "4", 1); (hexClass, 3); (Lit "-", 1);
    (variantClass, 1); (hexClass, 3); (Lit "-", 1);
    (hexClass, 12) ]%nat.

Definition isValidId (threadId : string) : bool := test uuidRegex threadId.

(** ** The identifier format in the words of the specification

    "UUID v4, lowercase hex": 8-4-4-4-12 hex groups, version nibble fixed
    to 4, variant nibble in {8,9,a,b}. *)
Module Format.

Definition lower_hex (c : ascii) : bool :=
  let n := nat_of_ascii c in
  ((48 <=? n)%nat && (n <=? 57)%nat) || ((97 <=? n)%nat && (n <=? 102)%nat).

(** The groups of a string, cut at every separator. *)
Fixpoint groups (sep : ascii) (s : list ascii) : list (list ascii) :=
  match s with
  | [] => [[]]
  | c :: s' =>
      if Ascii.eqb c sep then [] :: groups sep s'
      else match groups sep s' with
           | g :: gs => (c :: g) :: gs
           | [] => [[c]]
           end
  end.

(** Gluing the groups back with the separator gives the string. *)
Fixpoint glue (sep : ascii) (gs : list (list ascii)) : list ascii :=
  match gs with
  | [] => []
  | [g] => g
  | g :: gs' => g ++ sep :: glue sep gs'
  end.

Definition first_is (p : ascii -> bool) (g : list ascii) : bool :=
  match g with
  | c :: _ => p c
  | [] => false
  end.

Definition one_of (cs : list ascii) (c : ascii) : bool :=
  existsb (Ascii.eqb c) cs.

(** The shape shared by the two readings; [variant] says which variant
    nibbles are allowed, [whole_fourth] whether the variant nibble too
    must be a lowercase hex digit. *)
Definition shaped (variant : ascii -> bool) (whole_fourth : bool)
    (s : list ascii) : bool :=
  match groups "-" s with
  | [g1; g2; g3; g4; g5] =>
      (length g1 =? 8)%nat && (length g2 =? 4)%nat && (length g3 =? 4)%nat
      && (length g4 =? 4)%nat && (length g5 =? 12)%nat
      && forallb lower_hex g1 && forallb lower_hex g2
      && forallb lower_hex g3
      && forallb lower_hex (if whole_fourth then g4 else tail g4)
      && forallb lower_hex g5
      && first_is (Ascii.eqb "4") g3
      && first_is variant g4
  | _ => false
  end.

(** The specification's format: every hex digit lowercase, variant
    nibble one of 8, 9, a, b. *)
Definition uuid_v4 (s : string) : bool :=
  shaped (one_of ["8"; "9"; "a"; "b"]%char) true (list_ascii_of_string s).

(** The same format, except that the variant nibble may also be an
    upper-case A or B. *)
Definition uuid_v4_loose_variant (s : string) : bool :=
  shaped (one_of ["8"; "9"; "a"; "A"; "b"; "B"]%char) false
    (list_ascii_of_string s).

End Format.

(** ** JavaScript values that reach the handlers *)

(** A JavaScript number as far as the page arithmetic reaches: NaN, an
    infinity, or a finite double whose value is an integer, kept as that
    integer.  (Zero stands for both zeros; the services only compare and
    subtract.) *)
Inductive number :=
| NaN
| Inf (negative : bool)
| Num (z : Z).

(** The double nearest to an integer, ties to the even significand, and
    an infinity from 2^1024 - 2^970 on: a double has 53 significant bits
    and its largest finite value is 2^1024 - 2^971. *)
Definition to_double (z : Z) : number :=
  let a := Z.abs z in
  if (a <? 2 ^ 53)%Z then Num z
  else
    let e := (Z.log2 a - 52)%Z in
    let q := (a / 2 ^ e)%Z in
    let r := (a mod 2 ^ e)%Z in
    let half := (2 ^ (e - 1))%Z in
    let q' := if (half <? r)%Z || ((r =? half)%Z && Z.odd q)
              then (q + 1)%Z else q in
    let m := (q' * 2 ^ e)%Z in
    if (2 ^ 1024 <=? m)%Z then Inf (z <? 0)%Z else Num (Z.sgn z * m).

(** [a > b]: false as soon as one side is NaN. *)
Definition num_gt (a b : number) : bool :=
  match a, b with
  | Num x, Num y => (y <? x)%Z
  | Inf false, Num _ => true
  | Num _, Inf true => true
  | Inf false, Inf true => true
  | _, _ => false
  end.

(** [a * b], rounded once. *)
Definition num_mul (a b : number) : number :=
  match a, b with
  | Num x, Num y => to_double (x * y)
  | Inf s, Num y | Num y, Inf s =>
      if (y =? 0)%Z then NaN else Inf (xorb s (y <? 0)%Z)
  | Inf s, Inf t => Inf (xorb s t)
  | _, _ => NaN
  end.

(** [a - b], rounded once. *)
Definition num_sub (a b : number) : number :=
  match a, b with
  | Num x, Num y => to_double (x - y)
  | Inf s, Num _ => Inf s
  | Num _, Inf s => Inf (negb s)
  | Inf s, Inf t => if Bool.eqb s t then NaN else Inf s
  | _, _ => NaN
  end.

(** [parseInt(s, 10)], after ECMA-262 (parseInt): strip leading white
    space, take an optional sign, then the longest prefix of decimal
    digits; no digit at all gives NaN, otherwise the number is the
    double of the signed value.  Radix 10 never strips a 0x prefix.
    Strings are held as their UTF-8 bytes.  For numerals of more than 20
    significant digits ECMA-262 lets an implementation approximate; the
    nearest double is what V8 returns. *)
Module ParseInt.

(** Tab, line feed, vertical tab, form feed, carriage return, space. *)
Definition is_ascii_space (a : ascii) : bool :=
  let n := nat_of_ascii a in
  ((9 <=? n)%nat && (n <=? 13)%nat) || (n =? 32)%nat.

(** U+00A0, no-break space: C2 A0. *)
Definition is_space2 (a b : ascii) : bool :=
  (nat_of_ascii a =? 194)%nat && (nat_of_ascii b =? 160)%nat.

(** The white space of three bytes: U+1680 (E1 9A 80), U+2000 to U+200A
    (E2 80 80 to E2 80 8A), the line and paragraph separators U+2028 and
    U+2029 (E2 80 A8, E2 80 A9), U+202F (E2 80 AF), U+205F (E2 81 9F),
    U+3000 (E3 80 80) and the byte order mark U+FEFF (EF BB BF). *)
Definition is_space3 (a b c : ascii) : bool :=
  let x := nat_of_ascii a in
  let y := nat_of_ascii b in
  let z := nat_of_ascii c in
  ((x =? 225) && (y =? 154) && (z =? 128))%nat
  || ((x =? 226) && (y =? 128)
      && (((128 <=? z) && (z <=? 138)) || (z =? 168) || (z =? 169)
          || (z =? 175)))%nat
  || ((x =? 226) && (y =? 129) && (z =? 159))%nat
  || ((x =? 227) && (y =? 128) && (z =? 128))%nat
  || ((x =? 239) && (y =? 187) && (z =? 191))%nat.

(** The number of bytes of the white-space character that the string
    starts with; 0 when it starts with none. *)
Definition space_width (s : list ascii) : nat :=
  match s with
  | a :: s1 =>
      if is_ascii_space a then 1
      else match s1 with
           | b :: s2 =>
               if is_space2 a b then 2
               else match s2 with
                    | c :: _ => if is_space3 a b c then 3 else 0
                    | [] => 0
                    end
           | [] => 0
           end
  | [] => 0
  end%nat.

Definition is_digit (c : ascii) : bool :=
  let n := nat_of_ascii c in (48 <=? n)%nat && (n <=? 57)%nat.

Definition digit_value (c : ascii) : Z := Z.of_nat (nat_of_ascii c) - 48.

(** Strip every leading white-space character (StrWhiteSpaceChar). *)
Fixpoint trim_start (s : list ascii) : list ascii :=
  match s with
  | a :: s1 =>
      if is_ascii_space a then trim_start s1
      else match s1 with
           | b :: s2 =>
               if is_space2 a b then trim_start s2
               else match s2 with
                    | c :: s3 => if is_space3 a b c then trim_start s3 else s
                    | [] => s
                    end
           | [] => s
           end
  | [] => []
  end.

(** The longest prefix of digits. *)
Fixpoint digits (s : list ascii) : list ascii :=
  match s with
  | c :: s' => if is_digit c then c :: digits s' else []
  | [] => []
  end.

Definition starts_with_digit (s : list ascii) : bool :=
  match s with
  | c :: _ => is_digit c
  | [] => false
  end.

Definition value (ds : list ascii) : Z :=
  fold_left (fun acc c => 10 * acc + digit_value c)%Z ds 0%Z.

Definition parse (s : list ascii) : number :=
  let s1 := trim_start s in
  let '(sign, s2) :=
    match s1 with
    | c :: r =>
        if Ascii.eqb c "-" then ((-1)%Z, r)
        else if Ascii.eqb c "+" then (1%Z, r)
        else (1%Z, s1)
    | [] => (1%Z, s1)
    end in
  match digits s2 with
  | [] => NaN
  | ds => to_double (sign * value ds)
  end.

End ParseInt.

Definition parseInt (s : string) : number :=
  ParseInt.parse (list_ascii_of_string s).

(** The decimal numeral of a natural number, as the Standard Library
    writes it. *)
Definition decimal (n : N) : string :=
  NilEmpty.string_of_uint (N.to_uint n).

(** [count] copies of a character. *)
Fixpoint repeated (c : ascii) (count : nat) : string :=
  match count with
  | O => EmptyString
  | S k => String c (repeated c k)
  end.

(** [req.query.page]: absent, one string, or what the query parser makes
    of repeated and bracketed keys. *)
Inductive QueryValue :=
| QAbsent
| QString (s : string)
| QArray (items : list string)
| QObject (fields : list (string * string)).

(** [if (x)] on an optional string of the request body: absent and the
    empty string are falsy. *)
Definition truthy (x : option string) : bool :=
  match x with
  | Some s => negb (String.eqb s "")
  | None => false
  end.

(** [const { content, image, uploadId } = req.body] *)
Record Body := {
  body_content : string;
  body_image : option string;
  body_uploadId : option string
}.

(** ** Entities and the store *)

(** Modelled from the spec: the entity declarations of
    [database/entities] (Thread, User, Upload and the Like and Reply
    relations) are not among the sources.  The records below hold the
    columns that the services name in their queries and that the
    specification's data model lists; every table is keyed by the
    identifier of its rows. *)

(** The columns of a User that the services name. *)
Record User := {
  user_id : string;
  user_username : string;
  user_fullname : string;
  user_profile_picture : option string
}.

(** Modelled from the spec: a row of the Thread table, with the content,
    the optional image, the owning User and the timestamps of creation
    and update of the data model.  The store keeps the row under its
    identifier; [thread_user] is the foreign key of the owning User. *)
Record Thread := {
  thread_content : string;
  thread_image : option string;
  thread_created_at : Z;
  thread_updated_at : Z;
  thread_user : string
}.

Record Like := {
  like_created_at : Z;
  like_updated_at : Z;
  like_user : string;
  like_thread : string
}.

Record Reply := {
  reply_content : string;
  reply_image : option string;
  reply_created_at : Z;
  reply_updated_at : Z;
  reply_user : string;
  reply_thread : string
}.

(** The tables behind the three repositories and the two relations that
    the queries join.  An Upload is a staged file reference under its
    identifier. *)
Record Store := {
  users : gmap string User;
  threads : gmap string Thread;
  likes : gmap string Like;
  replies : gmap string Reply;
  uploads : gmap string string
}.

Definition set_threads (f : gmap string Thread -> gmap string Thread)
    (s : Store) : Store :=
  {| users := users s; threads := f (threads s); likes := likes s;
     replies := replies s; uploads := uploads s |}.

Definition set_uploads (f : gmap string string -> gmap string string)
    (s : Store) : Store :=
  {| users := users s; threads := threads s; likes := likes s;
     replies := replies s; uploads := f (uploads s) |}.

(** A Thread object in the handler: [new Thread()] has no property set, a
    loaded one has its columns, and [user] is present only once assigned
    or joined. *)
Record ThreadEntity := {
  e_id : string;
  e_content : string;
  e_image : option string;
  e_user : option User
}.

(** What a query with [relations] and [select] hands back. *)
Record LikeView := {
  lv_id : string;
  lv_created_at : Z;
  lv_updated_at : Z;
  lv_user : option User
}.

Record ReplyView := {
  rv_id : string;
  rv_content : string;
  rv_image : option string;
  rv_created_at : Z;
  rv_updated_at : Z;
  rv_user : option User
}.

(** A Thread with its relations joined; [R] is the type held by the
    [replies] property. *)
Record ThreadView (R : Type) := {
  tv_id : string;
  tv_content : string;
  tv_image : option string;
  tv_created_at : Z;
  tv_updated_at : Z;
  tv_user : option User;
  tv_likes : list LikeView;
  tv_replies : R
}.
Arguments tv_id {R}.
Arguments tv_content {R}.
Arguments tv_image {R}.
Arguments tv_created_at {R}.
Arguments tv_updated_at {R}.
Arguments tv_user {R}.
Arguments tv_likes {R}.
Arguments tv_replies {R}.

(** ** Store calls, errors and the handler monad *)

(** A call on one of the three repositories, with its arguments. *)
Inductive RepoOp :=
| UserFindOne (id : string)
| ThreadSave (e : ThreadEntity)
| UploadDelete (id : string)
| ThreadFind (skip take : number)
| ThreadFindOne (id : string) (relations : bool)
| ThreadDelete (id : string).

Inductive Error :=
| BadRequestError (message name : string)
| NotFoundError (message name : string)
| StoreError (op : RepoOp).

(** The world a handler runs in: the tables, the store's clock, the calls
    issued so far (oldest first), which calls the store will reject
    ([fault w k] says that the [k]-th call of the run raises), and how
    the store orders rows that the requested order leaves tied:
    [ties w k] ranks the rows for the [k]-th call.  The store promises no
    order among Threads created at the same time, nor the same order from
    one query to the next, so the ranks are free and may differ from call
    to call. *)
Record World := {
  store : Store;
  clock : Z;
  log : list RepoOp;
  fault : nat -> bool;
  ties : nat -> string -> Z
}.

Definition M (A : Type) : Type := World -> (Error + A) * World.

Definition ret {A} (a : A) : M A := fun w => (inr a, w).

Definition throw {A} (e : Error) : M A := fun w => (inl e, w).

Definition bind {A B} (m : M A) (k : A -> M B) : M B :=
  fun w =>
    match m w with
    | (inr a, w') => k a w'
    | (inl e, w') => (inl e, w')
    end.

Notation "x <- m ;; k" := (bind m (fun x => k))
  (at level 100, m at next level, right associativity).
Notation "m ;;; k" := (bind m (fun _ => k))
  (at level 100, right associativity).

(** [await repository.method(...)]: the call is issued, then either the
    store raises (a fault, or a statement it cannot execute) or the
    statement takes effect. *)
Definition call {A} (op : RepoOp)
    (run : Z -> (string -> Z) -> Store -> option (A * Store)) : M A :=
  fun w =>
    let issued := log w ++ [op] in
    if fault w (length (log w)) then
      (inl (StoreError op),
       {| store := store w; clock := clock w; log := issued;
          fault := fault w; ties := ties w |})
    else
      match run (clock w) (ties w (length (log w))) (store w) with
      | Some (a, s') =>
          (inr a, {| store := s'; clock := clock w; log := issued;
                     fault := fault w; ties := ties w |})
      | None =>
          (inl (StoreError op),
           {| store := store w; clock := clock w; log := issued;
              fault := fault w; ties := ties w |})
      end.

(** *** The queries *)

Definition likes_of (s : Store) (tid : string) : list LikeView :=
  map (fun '(id, l) =>
         {| lv_id := id; lv_created_at := like_created_at l;
            lv_updated_at := like_updated_at l;
            lv_user := users s !! like_user l |})
      (filter (fun kv => like_thread kv.2 = tid) (map_to_list (likes s))).

Definition reply_rows_of (s : Store) (tid : string) : list (string * Reply) :=
  filter (fun kv => reply_thread kv.2 = tid) (map_to_list (replies s)).

Definition replies_of (s : Store) (tid : string) : list ReplyView :=
  map (fun '(id, r) =>
         {| rv_id := id; rv_content := reply_content r;
            rv_image := reply_image r;
            rv_created_at := reply_created_at r;
            rv_updated_at := reply_updated_at r;
            rv_user := users s !! reply_user r |})
      (reply_rows_of s tid).

Definition view {R} (s : Store) (rs : Store -> string -> R)
    (id : string) (t : Thread) : ThreadView R :=
  {| tv_id := id; tv_content := thread_content t;
     tv_image := thread_image t; tv_created_at := thread_created_at t;
     tv_updated_at := thread_updated_at t;
     tv_user := users s !! thread_user t;
     tv_likes := likes_of s id;
     tv_replies := rs s id |}.

Definition entity_of (id : string) (t : Thread) : ThreadEntity :=
  {| e_id := id; e_content := thread_content t;
     e_image := thread_image t; e_user := None |}.

(** [order: { created_at: "DESC" }]: the later creation comes first, and
    rows created at the same time come in the order of the ranks that
    the store happens to give them. *)
Definition comes_first (rank : string -> Z) (a b : string * Thread) : bool :=
  (thread_created_at b.2 <? thread_created_at a.2)%Z
  || ((thread_created_at a.2 =? thread_created_at b.2)%Z
      && (rank a.1 <=? rank b.1)%Z).

Definition newer_first (rank : string -> Z) (a b : string * Thread) : Prop :=
  comes_first rank a b = true.

#[global] Instance newer_first_dec rank a b : Decision (newer_first rank a b) :=
  bool_eq_dec (comes_first rank a b) true.


Definition by_created_at_desc (rank : string -> Z) (s : Store)
    : list (string * Thread) :=
  merge_sort (newer_first rank) (map_to_list (threads s)).

(** [skip] and [take] as the query builder reads them: a number that is
    not a finite non-negative integer makes no executable statement. *)
Definition as_count (n : number) : option nat :=
  match n with
  | Num z => if (0 <=? z)%Z then Some (Z.to_nat z) else None
  | NaN | Inf _ => None
  end.

Definition UserRepository_findOne (id : string) : M (option User) :=
  call (UserFindOne id) (fun _ _ s => Some (users s !! id, s)).

(** Modelled from the spec: the update timestamp of the data model is
    kept by the store.  The row that [save] leaves for an entity whose
    row is stored: the columns whose property is set on the entity are
    written and the store stamps the update; a save that changes no
    column writes nothing, and the stamp stays. *)
Definition updated_row (now : Z) (e : ThreadEntity) (row : Thread) : Thread :=
  let content := e_content e in
  let image := match e_image e with
               | Some i => Some i
               | None => thread_image row
               end in
  let user := match e_user e with
              | Some u => user_id u
              | None => thread_user row
              end in
  if bool_decide (content = thread_content row)
     && bool_decide (image = thread_image row)
     && bool_decide (user = thread_user row)
  then row
  else {| thread_content := content; thread_image := image;
          thread_created_at := thread_created_at row;
          thread_updated_at := now; thread_user := user |}.

(** [save]: an entity whose id is not in the table is inserted, with the
    times of creation and update stamped by the store; otherwise the row
    is updated.  A row without an owner cannot be inserted. *)
Definition save_thread (now : Z) (e : ThreadEntity) (s : Store) : option Store :=
  match threads s !! e_id e with
  | Some row => Some (set_threads (insert (e_id e) (updated_row now e row)) s)
  | None =>
      match e_user e with
      | Some u =>
          let row :=
            {| thread_content := e_content e;
               thread_image := e_image e; thread_created_at := now;
               thread_updated_at := now; thread_user := user_id u |} in
          Some (set_threads (insert (e_id e) row) s)
      | None => None
      end
  end.

Definition ThreadRepository_save (e : ThreadEntity) : M unit :=
  call (ThreadSave e) (fun now _ s => pair tt <$> save_thread now e s).

Definition UploadRepository_delete (id : string) : M unit :=
  call (UploadDelete id) (fun _ _ s => Some (tt, set_uploads (delete id) s)).

(** [find] with [relations: ["user", "likes.user", "replies"]], [take],
    [skip] and [order]. *)
Definition ThreadRepository_find (skip take : number)
    : M (list (ThreadView (list (string * Reply)))) :=
  call (ThreadFind skip take)
       (fun _ rank s =>
          k ← as_count skip; n ← as_count take;
          Some (map (fun '(id, t) => view s reply_rows_of id t)
                  (firstn n (skipn k (by_created_at_desc rank s))), s)).

(** [findOne({ where: { id } })], without relations. *)
Definition ThreadRepository_findOne (id : string) : M (option ThreadEntity) :=
  call (ThreadFindOne id false)
       (fun _ _ s => Some (entity_of id <$> threads s !! id, s)).

(** [findOne] with [relations: ["user", "likes.user", "replies.user"]]. *)
Definition ThreadRepository_findOne_joined (id : string)
    : M (option (ThreadView (list ReplyView))) :=
  call (ThreadFindOne id true)
       (fun _ _ s => Some (view s replies_of id <$> threads s !! id, s)).

(** [delete(id)]: the row goes.  What becomes of the Likes and Replies
    that point at it is declared with the entities, which are not among
    the sources: here they go with the row, and a store that refuses such
    a deletion instead is a store that faults on the call. *)
Definition delete_thread (id : string) (s : Store) : Store :=
  {| users := users s;
     threads := delete id (threads s);
     likes := filter (fun kv => like_thread kv.2 ≠ id) (likes s);
     replies := filter (fun kv => reply_thread kv.2 ≠ id) (replies s);
     uploads := uploads s |}.

Definition ThreadRepository_delete (id : string) : M unit :=
  call (ThreadDelete id) (fun _ _ s => Some (tt, delete_thread id s)).

(** ** Responses *)

Inductive Data :=
| NoData
| ThreadList (items : list (ThreadView nat))
| OneThread (t : ThreadView (list ReplyView)).

(** [{ code, status, message, data? }] *)
Record Envelope := {
  code : Z;
  status : string;
  message : string;
  data : Data
}.

Inductive Response :=
| Json (httpStatus : Z) (body : Envelope)
| Failed (e : Error).

(** Modelled from the spec: [handleError] of [utils/exception/handleError]
    is not among the sources.  Every operation hands whatever it catches
    to this shared translator, which answers with an error envelope in
    place of the success envelope; the envelope is kept abstract as the
    error it reports. *)
Definition handleError (e : Error) : Response := Failed e.

Definition Handler : Type := World -> Response * World.

(** [try { ... } catch (error) { return handleError(res, error); }] *)
Definition try_catch (m : M Response) (h : Error -> Response) : Handler :=
  fun w =>
    match m w with
    | (inr r, w') => (r, w')
    | (inl e, w') => (h e, w')
    end.

Definition success (c : Z) (msg : string) (d : Data) : Response :=
  Json c {| code := c; status := "success"; message := msg; data := d |}.

Definition invalidId : Error :=
  BadRequestError "The sent ID is not a valid UUID format" "UUID Error".

Definition threadNotFound (threadId : string) : Error :=
  NotFoundError ("Thread with ID " ++ threadId ++ " not found") "Thread Not Found".

Definition userNotFound (authId : string) : Error :=
  NotFoundError ("User with ID " ++ authId ++ " not found") "User Not Found".

(** ** The handlers *)

(** [add]; [uuid] is the value that [uuidv4()] draws, [authId] is
    [res.locals.auth.id]. *)
Definition newThread (uuid : string) (body : Body) (userSelected : User)
    : ThreadEntity :=
  {| e_id := uuid;
     e_content := body_content body;
     e_image := if truthy (body_image body) then body_image body else None;
     e_user := Some userSelected |}.

Definition add (uuid : string) (authId : string) (body : Body) : Handler :=
  try_catch
    (userSelected <- UserRepository_findOne authId ;;
     match userSelected with
     | None => throw (userNotFound authId)
     | Some userSelected =>
         let thread := newThread uuid body userSelected in
         ThreadRepository_save thread ;;;
         (match body_uploadId body with
          | Some uploadId =>
              if truthy (Some uploadId) then UploadRepository_delete uploadId
              else ret tt
          | None => ret tt
          end) ;;;
         ret (success 201 "Add Thread Success" NoData)
     end)
    handleError.

(** [typeof req.query.page === "string" ? parseInt(req.query.page, 10) : 1] *)
Definition queryPage (q : QueryValue) : number :=
  match q with
  | QString s => parseInt s
  | _ => Num 1
  end.

(** [page > 1 ? page : 1] *)
Definition clampPage (page : number) : number :=
  if num_gt page (Num 1) then page else Num 1.

(** The two assignments to [page] at the head of [findAll]. *)
Definition pageOf (q : QueryValue) : number := clampPage (queryPage q).

(** [skip: page * 10 - 10] *)
Definition skipOf (page : number) : number :=
  num_sub (num_mul page (Num 10)) (Num 10).

Definition withReplyCount (t : ThreadView (list (string * Reply)))
    : ThreadView nat :=
  {| tv_id := tv_id t; tv_content := tv_content t; tv_image := tv_image t;
     tv_created_at := tv_created_at t; tv_updated_at := tv_updated_at t;
     tv_user := tv_user t;
     tv_likes := tv_likes t; tv_replies := length (tv_replies t) |}.

Definition findAll (q : QueryValue) : Handler :=
  try_catch
    (let page := pageOf q in
     threads <- ThreadRepository_find (skipOf page) (Num 10) ;;
     ret (success 200 "Find All Thread Success"
            (ThreadList (map withReplyCount threads))))
    handleError.

Definition findOne (threadId : string) : Handler :=
  try_catch
    (if negb (test uuidRegex threadId) then throw invalidId
     else
       thread <- ThreadRepository_findOne_joined threadId ;;
       match thread with
       | None => throw (threadNotFound threadId)
       | Some thread =>
           ret (success 200 "Find One Thread Success" (OneThread thread))
       end)
    handleError.

Definition updateOne (threadId : string) (content : string) : Handler :=
  try_catch
    (if negb (test uuidRegex threadId) then throw invalidId
     else
       thread <- ThreadRepository_findOne threadId ;;
       match thread with
       | None => throw (threadNotFound threadId)
       | Some thread =>
           let thread :=
             {| e_id := e_id thread; e_content := content;
                e_image := e_image thread; e_user := e_user thread |} in
           ThreadRepository_save thread ;;;
           ret (success 200 "Update One Thread Success" NoData)
       end)
    handleError.

Definition deleteOne (threadId : string) : Handler :=
  try_catch
    (if negb (test uuidRegex threadId) then throw invalidId
     else
       thread <- ThreadRepository_findOne threadId ;;
       match thread with
       | None => throw (threadNotFound threadId)
       | Some _ =>
           ThreadRepository_delete threadId ;;;
           ret (success 200 "Delete One Thread Success" NoData)
       end)
    handleError.

(** The operations as the router dispatches them. *)
Inductive Request :=
| Add (uuid authId : string) (body : Body)
| FindAll (page : QueryValue)
| FindOne (threadId : string)
| UpdateOne (threadId content : string)
| DeleteOne (threadId : string).

Definition handle (r : Request) : Handler :=
  match r with
  | Add uuid authId body => add uuid authId body
  | FindAll page => findAll page
  | FindOne threadId => findOne threadId
  | UpdateOne threadId content => updateOne threadId content
  | DeleteOne threadId => deleteOne threadId
  end.

(** ** Reading a run *)

(** The calls that a handler issued, given the log before and after. *)
Definition issued (before after : World) : list RepoOp :=
  skipn (length (log before)) (log after).

Definition is_upload_delete (op : RepoOp) : bool :=
  match op with UploadDelete _ => true | _ => false end.

Definition is_thread_save (op : RepoOp) : bool :=
  match op with ThreadSave _ => true | _ => false end.

(** The world [w] after the calls [ops] have left the tables as [s]. *)
Definition after (w : World) (s : Store) (ops : list RepoOp) : World :=
  {| store := s; clock := clock w; log := log w ++ ops; fault := fault w;
     ties := ties w |}.

(** The projection that [findAll] serves for a stored row. *)
Definition listItem (s : Store) (kv : string * Thread) : ThreadView nat :=
  withReplyCount (view s reply_rows_of kv.1 kv.2).

(** A row after its content has been saved at time [now]: with the new
    content and the time of this update, unless the content is the one it
    had. *)
Definition withContent (now : Z) (content : string) (t : Thread) : Thread :=
  if bool_decide (content = thread_content t) then t
  else {| thread_content := content; thread_image := thread_image t;
          thread_created_at := thread_created_at t;
          thread_updated_at := now; thread_user := thread_user t |}.

(** The Thread that a [findOne] response carries. *)
Definition served (r : Response) : option (ThreadView (list ReplyView)) :=
  match r with
  | Json _ b => match data b with OneThread t => Some t | _ => None end
  | Failed _ => None
  end.

(** The Threads that a [findAll] response carries. *)
Definition listed (r : Response) : option (list (ThreadView nat)) :=
  match r with
  | Json _ b => match data b with ThreadList ts => Some ts | _ => None end
  | Failed _ => None
  end.

(** A store with nothing in it and a world that never faults, for the
    examples. *)
Definition emptyStore : Store :=
  {| users := ∅; threads := ∅; likes := ∅; replies := ∅; uploads := ∅ |}.

Definition calm (s : Store) (now : Z) : World :=
  {| store := s; clock := now; log := []; fault := fun _ => false;
     ties := fun _ _ => 0%Z |}.


(** Sample rows for the examples. *)
Definition alice : User :=
  {| user_id := "u1"; user_username := "alice"; user_fullname := "Alice A";
     user_profile_picture := None |}.

Definition bob : User :=
  {| user_id := "u2"; user_username := "bob"; user_fullname := "Bob B";
     user_profile_picture := Some "bob.png" |}.

Definition sampleId : string := "123e4567-e89b-42d3-a456-426614174000".

Definition otherId : string := "0f0e0d0c-0b0a-4908-8706-050403020100".

Definition sampleThread : Thread :=
  {| thread_content := "first"; thread_image := Some "a.png";
     thread_created_at := 5; thread_updated_at := 5; thread_user := "u1" |}.

Definition sampleLike : Like :=
  {| like_created_at := 6; like_updated_at := 6;
     like_user := "u2"; like_thread := sampleId |}.

Definition sampleReply : Reply :=
  {| reply_content := "welcome"; reply_image := None;
     reply_created_at := 7; reply_updated_at := 7; reply_user := "u2";
     reply_thread := sampleId |}.

Definition usersOnly : Store :=
  {| users := <[ "u1" := alice ]> (<[ "u2" := bob ]> ∅); threads := ∅;
     likes := ∅; replies := ∅; uploads := <[ "up1" := "staged/a.png" ]> ∅ |}.

Definition sampleStore : Store :=
  {| users := <[ "u1" := alice ]> (<[ "u2" := bob ]> ∅);
     threads := <[ sampleId := sampleThread ]> ∅;
     likes := <[ "l1" := sampleLike ]> ∅;
     replies := <[ "r1" := sampleReply ]> ∅;
     uploads := <[ "up1" := "staged/a.png" ]> ∅ |}.

(** A store with [n] Threads of [alice], the [k]-th created at time [k]
    under a one-letter identifier. *)
Fixpoint manyThreads (n : nat) : gmap string Thread :=
  match n with
  | O => ∅
  | S k =>
      <[ String (ascii_of_nat (65 + k)) "" :=
           {| thread_content := "post"; thread_image := None;
              thread_created_at := Z.of_nat k;
              thread_updated_at := Z.of_nat k; thread_user := "u1" |} ]>
        (manyThreads k)
  end.

Definition busyStore : Store :=
  {| users := <[ "u1" := alice ]> ∅; threads := manyThreads 12;
     likes := ∅; replies := ∅; uploads := ∅ |}.

(** ** Reading a run, continued *)

(** A call on the Thread repository. *)
Definition on_thread_repository (op : RepoOp) : bool :=
  match op with
  | ThreadSave _ | ThreadFind _ _ | ThreadFindOne _ _ | ThreadDelete _ => true
  | UserFindOne _ | UploadDelete _ => false
  end.

(** The error that a failed response reports. *)
Definition reported (r : Response) : option Error :=
  match r with
  | Failed e => Some e
  | Json _ _ => None
  end.

Definition is_bad_request (r : Response) : bool :=
  match r with
  | Failed (BadRequestError _ _) => true
  | _ => false
  end.

(** Every User row sits under its own identifier. *)
Definition users_keyed (s : Store) : Prop :=
  map_Forall (fun k u => user_id u = k) (users s).

(** Every Thread is owned by a stored User. *)
Definition owners_exist (s : Store) : Prop :=
  map_Forall (fun _ t => is_Some (users s !! thread_user t)) (threads s).

(** A world whose store refuses the [n]-th call and no other. *)
Definition refusing (n : nat) (s : Store) (now : Z) : World :=
  {| store := s; clock := now; log := []; fault := fun k => Nat.eqb k n;
     ties := fun _ _ => 0%Z |}.



(** Two Threads created at the same time, and a world whose store ranks
    them one way for its first call and the other way afterwards. *)
Definition twinStore : Store :=
  {| users := <[ "u1" := alice ]> ∅;
     threads :=
       <[ "A" := {| thread_content := "one"; thread_image := None;
                    thread_created_at := 3; thread_updated_at := 3;
                    thread_user := "u1" |} ]>
         (<[ "B" := {| thread_content := "two"; thread_image := None;
                       thread_created_at := 3; thread_updated_at := 3;
                       thread_user := "u1" |} ]> ∅);
     likes := ∅; replies := ∅; uploads := ∅ |}.

Definition fickle (s : Store) (now : Z) : World :=
  {| store := s; clock := now; log := []; fault := fun _ => false;
     ties := fun k id =>
               if Nat.eqb k 0
               then (if String.eqb id "A" then 0 else 1)%Z
               else (if String.eqb id "A" then 1 else 0)%Z |}.

(** * Properties *)

(** ** The identifier format *)
Section IdentifierFormat.

Import Format.

Lemma hexClass_lower_hex c : atom_matches hexClass c = lower_hex c.
Proof.
  unfold lower_hex, hexClass, atom_matches, existsb, item_matches, code.
  change (nat_of_ascii "a") with 97%nat.
  change (nat_of_ascii "f") with 102%nat.
  rewrite orb_false_r. apply orb_comm.
Qed.

Lemma variantClass_one_of c :
  atom_matches variantClass c = one_of ["8"; "9"; "a"; "A"; "b"; "B"]%char c.
Proof. reflexivity. Qed.

Lemma lower_hex_not_dash c : lower_hex c = true -> Ascii.eqb c "-" = false.
Proof.
  intros H. destruct (Ascii.eqb_spec c "-") as [->|]; [discriminate H | reflexivity].
Qed.

Lemma variant_not_dash c :
  one_of ["8"; "9"; "a"; "A"; "b"; "B"]%char c = true -> Ascii.eqb c "-" = false.
Proof.
  intros H. destruct (Ascii.eqb_spec c "-") as [->|]; [discriminate H | reflexivity].
Qed.

Lemma eat_length a n s r : eat a n s = Some r -> length s = (n + length r)%nat.
Proof.
  revert s. induction n as [|n IH]; intros s H; simpl in H.
  - injection H as ->. reflexivity.
  - destruct s as [|c s]; [discriminate|].
    destruct (atom_matches a c); [|discriminate].
    simpl. f_equal. apply IH, H.
Qed.

Lemma match_pieces_length ps s :
  match_pieces ps s = true -> length s = width ps.
Proof.
  revert s. induction ps as [|[a n] ps IH]; intros s H; simpl in H.
  - destruct s; [reflexivity | discriminate].
  - destruct (eat a n s) as [r|] eqn:E; [|discriminate].
    apply eat_length in E. rewrite E. simpl. f_equal. apply IH, H.
Qed.

Lemma groups_nonempty sep s : groups sep s <> [].
Proof.
  destruct s as [|c s]; simpl; [discriminate|].
  destruct (Ascii.eqb c sep); [discriminate|].
  destruct (groups sep s); discriminate.
Qed.

Lemma glue_groups sep s : glue sep (groups sep s) = s.
Proof.
  induction s as [|c s IH]; [reflexivity|].
  simpl. destruct (Ascii.eqb_spec c sep) as [->|Hne].
  - pose proof (groups_nonempty sep s) as Hn.
    destruct (groups sep s) as [|g gs]; [contradiction|].
    simpl in *. rewrite IH. reflexivity.
  - pose proof (groups_nonempty sep s) as Hn.
    destruct (groups sep s) as [|g gs]; [contradiction|].
    destruct gs; simpl in *; rewrite <- IH; reflexivity.
Qed.


Lemma groups_cons_sep sep s : groups sep (sep :: s) = [] :: groups sep s.
Proof. simpl. rewrite Ascii.eqb_refl. reflexivity. Qed.

Lemma groups_cons_other sep c s :
  Ascii.eqb c sep = false ->
  groups sep (c :: s) =
  match groups sep s with g :: gs => (c :: g) :: gs | [] => [[c]] end.
Proof. intros H. simpl. rewrite H. reflexivity. Qed.

Ltac split_andb H :=
  repeat match type of H with
         | (_ && _)%bool = true =>
             let H1 := fresh "H" in
             apply andb_prop in H as [H H1]
         end.

Lemma accepted_is_shaped l :
  match_pieces uuidRegex l = true ->
  shaped (one_of ["8"; "9"; "a"; "A"; "b"; "B"]%char) false l = true.
Proof.
  intros H. pose proof (match_pieces_length _ _ H) as Hlen.
  cbn in Hlen.
  do 36 (destruct l as [|? l]; [discriminate Hlen|]).
  destruct l; [|discriminate Hlen]. clear Hlen.
  unfold uuidRegex in H. cbn [match_pieces eat] in H.
  repeat match type of H with
         | context [if atom_matches ?a ?c then _ else _] =>
             let E := fresh "E" in
             destruct (atom_matches a c) eqn:E; [|discriminate H]
         end.
  clear H.
  repeat match goal with
         | E : atom_matches (Lit _) ?c = true |- _ =>
             apply Ascii.eqb_eq in E; subst c
         | E : atom_matches hexClass ?c = true |- _ =>
             rewrite hexClass_lower_hex in E
         | E : atom_matches variantClass ?c = true |- _ =>
             rewrite variantClass_one_of in E
         end.
  unfold shaped.
  repeat first
    [ rewrite groups_cons_sep
    | rewrite groups_cons_other
        by first [ apply lower_hex_not_dash; assumption
                 | apply variant_not_dash; assumption
                 | reflexivity ] ].
  cbn -[one_of lower_hex].
  repeat match goal with
         | E : _ = true |- _ => rewrite E; clear E
         end.
  reflexivity.
Qed.

Ltac andb_hyps :=
  repeat match goal with
         | H : (_ && _)%bool = true |- _ => apply andb_prop in H as [? ?]
         end.

Lemma shaped_is_accepted l :
  shaped (one_of ["8"; "9"; "a"; "A"; "b"; "B"]%char) false l = true ->
  match_pieces uuidRegex l = true.
Proof.
  intros H. unfold shaped in H.
  pose proof (glue_groups "-" l) as G.
  destruct (groups "-" l) as [|g1 [|g2 [|g3 [|g4 [|g5 [|? ?]]]]]];
    try discriminate H.
  andb_hyps.
  repeat match goal with
         | L : (length _ =? _)%nat = true |- _ => apply Nat.eqb_eq in L
         end.
  do 8 (destruct g1 as [|? g1]; [discriminate|]).
  destruct g1; [|discriminate].
  do 4 (destruct g2 as [|? g2]; [discriminate|]).
  destruct g2; [|discriminate].
  do 4 (destruct g3 as [|? g3]; [discriminate|]).
  destruct g3; [|discriminate].
  do 4 (destruct g4 as [|? g4]; [discriminate|]).
  destruct g4; [|discriminate].
  do 12 (destruct g5 as [|? g5]; [discriminate|]).
  destruct g5; [|discriminate].
  cbn in G. subst l.
  cbn [forallb tail first_is] in *. andb_hyps.
  match goal with
  | V : Ascii.eqb "4" ?c = true |- _ => apply Ascii.eqb_eq in V; subst c
  end.
  repeat match goal with
         | E : lower_hex _ = true |- _ => rewrite <- hexClass_lower_hex in E
         | E : one_of _ _ = true |- _ => rewrite <- variantClass_one_of in E
         end.
  unfold uuidRegex.
  repeat (cbn -[atom_matches];
          first [ match goal with
                  | E : atom_matches _ _ = true |- _ => rewrite E; clear E
                  end
                | match goal with
                  | |- context [atom_matches (Lit ?c) ?d] =>
                      change (atom_matches (Lit c) d) with true
                  end ]).
  reflexivity.
Qed.

Lemma isValidId_loose s : isValidId s = uuid_v4_loose_variant s.
Proof.
  unfold isValidId, test, uuid_v4_loose_variant.
  destruct (match_pieces uuidRegex _) eqn:A.
  - symmetry. apply accepted_is_shaped, A.
  - destruct (shaped _ _ _) eqn:B; [|reflexivity].
    apply shaped_is_accepted in B. congruence.
Qed.

Lemma strict_is_loose s : uuid_v4 s = true -> uuid_v4_loose_variant s = true.
Proof.
  unfold uuid_v4, uuid_v4_loose_variant, shaped.
  destruct (groups "-" _) as [|g1 [|g2 [|g3 [|g4 [|g5 [|? ?]]]]]];
    try discriminate.
  intros H. andb_hyps.
  destruct g4 as [|v g4]; [discriminate|].
  cbn [forallb tail first_is] in *. andb_hyps.
  repeat (apply andb_true_intro; split); try assumption.
  match goal with
  | V : one_of _ v = true |- _ =>
      unfold one_of in *; cbn [existsb] in *;
      repeat apply orb_prop in V as [V|V];
      try discriminate V; rewrite V; cbn; rewrite ?orb_true_r; reflexivity
  end.
Qed.

End IdentifierFormat.

(** C1, as amended.  The validator accepts every identifier of the
    specified format (8-4-4-4-12 groups of lowercase hex digits, version
    nibble 4, variant nibble 8, 9, a or b), and the strings it accepts
    are exactly those of that format with one relaxation: the variant
    nibble may also be an upper-case A or B.  Every other string, whatever
    rule of group length, version nibble, variant nibble or lowercase hex
    it breaks, is rejected. *)
Theorem isValidId_format (s : string) :
  (Format.uuid_v4 s = true -> isValidId s = true)
  /\ isValidId s = Format.uuid_v4_loose_variant s.
Proof.
  split.
  - intros H. rewrite isValidId_loose. apply strict_is_loose, H.
  - apply isValidId_loose.
Qed.

(** C1, as stated, fails: an identifier whose variant nibble is an
    upper-case A breaks the lowercase-hex rule and the variant rule
    {8,9,a,b}, yet the validator accepts it. *)
Lemma isValidId_accepts_upper_variant :
  isValidId "123e4567-e89b-42d3-A456-426614174000" = true
  /\ Format.uuid_v4 "123e4567-e89b-42d3-A456-426614174000" = false
  /\ Format.lower_hex "A" = false
  /\ Format.one_of ["8"; "9"; "a"; "b"]%char "A" = false.
Proof. repeat split; reflexivity. Qed.

Example isValidId_sample :
  isValidId "123e4567-e89b-42d3-a456-426614174000" = true.
Proof. reflexivity. Qed.

Example isValidId_not_a_uuid : isValidId "not-a-uuid" = false.
Proof. reflexivity. Qed.

Example isValidId_upper_hex :
  isValidId "123E4567-e89b-42d3-a456-426614174000" = false.
Proof. reflexivity. Qed.

(** ** Running a handler *)

Ltac unfold_handlers :=
  unfold handle, add, findAll, findOne, updateOne, deleteOne, try_catch, bind,
    ThreadRepository_findOne, ThreadRepository_findOne_joined,
    ThreadRepository_find, ThreadRepository_save, ThreadRepository_delete,
    UserRepository_findOne, UploadRepository_delete, call, throw, ret in *.

Ltac norm_log :=
  cbn [length store log fault clock ties fst snd];
  rewrite ?length_app;
  cbn [length store log fault clock ties fst snd].

Lemma issued_app w ops s c :
  issued w {| store := s; clock := c; log := log w ++ ops; fault := fault w;
              ties := ties w |} = ops.
Proof. unfold issued. cbn. apply drop_app_length. Qed.

Lemma issued_same w : issued w w = [].
Proof. unfold issued. apply drop_all. Qed.

(** ** Malformed identifiers *)

(** C2.  An identifier that the pattern does not match makes [findOne],
    [updateOne] and [deleteOne] answer with the BadRequest error and
    leaves the world as it was: the tables are the same and no call on
    any repository has been issued. *)
Theorem malformed_id_is_rejected_before_the_store
    (threadId content : string) (w : World) :
  isValidId threadId = false ->
  findOne threadId w = (handleError invalidId, w)
  /\ updateOne threadId content w = (handleError invalidId, w)
  /\ deleteOne threadId w = (handleError invalidId, w)
  /\ issued w (snd (findOne threadId w)) = []
  /\ issued w (snd (updateOne threadId content w)) = []
  /\ issued w (snd (deleteOne threadId w)) = [].
Proof.
  unfold isValidId. intros H.
  assert (findOne threadId w = (handleError invalidId, w)) as F
    by (unfold_handlers; rewrite H; reflexivity).
  assert (updateOne threadId content w = (handleError invalidId, w)) as U
    by (unfold_handlers; rewrite H; reflexivity).
  assert (deleteOne threadId w = (handleError invalidId, w)) as D
    by (unfold_handlers; rewrite H; reflexivity).
  rewrite F, U, D. cbn [snd]. rewrite issued_same. repeat split.
Qed.

Lemma malformed_id_is_rejected_before_the_store_witness :
  findOne "not-a-uuid" (calm emptyStore 0)
  = (Failed (BadRequestError "The sent ID is not a valid UUID format" "UUID Error"),
     calm emptyStore 0).
Proof.
  exact (proj1 (malformed_id_is_rejected_before_the_store
                  "not-a-uuid" "hello" (calm emptyStore 0) eq_refl)).
Defined.

(** ** Identifiers that no Thread carries *)

(** C3.  For a well-formed identifier under which the store holds no
    Thread, [updateOne] and [deleteOne] answer with the NotFound error
    once the store has answered the lookup, and the tables are left as
    they were: the lookup is the only call issued. *)
Theorem unassigned_id_is_not_found (threadId content : string) (w : World) :
  isValidId threadId = true ->
  threads (store w) !! threadId = None ->
  fault w (length (log w)) = false ->
  fst (updateOne threadId content w) = handleError (threadNotFound threadId)
  /\ store (snd (updateOne threadId content w)) = store w
  /\ issued w (snd (updateOne threadId content w)) = [ThreadFindOne threadId false]
  /\ fst (deleteOne threadId w) = handleError (threadNotFound threadId)
  /\ store (snd (deleteOne threadId w)) = store w
  /\ issued w (snd (deleteOne threadId w)) = [ThreadFindOne threadId false].
Proof.
  unfold isValidId. intros V N F.
  unfold_handlers. rewrite V. cbn [negb]. rewrite F, N. cbn.
  rewrite !issued_app. repeat split.
Qed.

Lemma unassigned_id_is_not_found_witness :
  fst (deleteOne "123e4567-e89b-42d3-a456-426614174000" (calm emptyStore 0))
  = handleError (threadNotFound "123e4567-e89b-42d3-a456-426614174000").
Proof.
  exact (proj1 (proj2 (proj2 (proj2
    (unassigned_id_is_not_found "123e4567-e89b-42d3-a456-426614174000" "hello"
       (calm emptyStore 0) eq_refl eq_refl eq_refl))))).
Defined.

(** ** Creating a Thread *)

(** C6.  When the authenticated identifier resolves to no User, [add]
    leaves every table as it was and issues no save on the Thread
    repository; once the store has answered the lookup, the answer is the
    NotFound error. *)
Theorem add_unknown_user_writes_nothing
    (uuid authId : string) (body : Body) (w : World) :
  users (store w) !! authId = None ->
  store (snd (add uuid authId body w)) = store w
  /\ issued w (snd (add uuid authId body w)) = [UserFindOne authId]
  /\ forallb (fun op => negb (is_thread_save op))
       (issued w (snd (add uuid authId body w))) = true
  /\ (fault w (length (log w)) = false ->
      fst (add uuid authId body w) = handleError (userNotFound authId)).
Proof.
  intros N. unfold_handlers.
  destruct (fault w (length (log w))) eqn:F; rewrite ?N; cbn;
    rewrite !issued_app; repeat split; discriminate.
Qed.

Lemma add_unknown_user_writes_nothing_witness :
  fst (add "123e4567-e89b-42d3-a456-426614174000" "nobody"
         {| body_content := "hello"; body_image := None; body_uploadId := None |}
         (calm emptyStore 0))
  = Failed (NotFoundError "User with ID nobody not found" "User Not Found").
Proof.
  exact (proj2 (proj2 (proj2
    (add_unknown_user_writes_nothing "123e4567-e89b-42d3-a456-426614174000"
       "nobody"
       {| body_content := "hello"; body_image := None; body_uploadId := None |}
       (calm emptyStore 0) eq_refl))) eq_refl).
Defined.

(** ** Deleting a Thread *)

(** C9.  With a Thread stored under a well-formed identifier and a store
    that answers the three calls involved, the first [deleteOne] succeeds
    with status 200 and removes the row, and a second [deleteOne] on the
    same identifier answers with the NotFound error. *)
Theorem deleteOne_twice (threadId : string) (t : Thread) (w : World) :
  isValidId threadId = true ->
  threads (store w) !! threadId = Some t ->
  fault w (length (log w)) = false ->
  fault w (length (log w) + 1) = false ->
  fault w (length (log w) + 2) = false ->
  fst (deleteOne threadId w) = success 200 "Delete One Thread Success" NoData
  /\ threads (store (snd (deleteOne threadId w))) !! threadId = None
  /\ fst (deleteOne threadId (snd (deleteOne threadId w)))
     = handleError (threadNotFound threadId).
Proof.
  unfold isValidId. intros V T F0 F1 F2.
  unfold_handlers. rewrite V. cbn [negb].
  rewrite F0, T. cbn. norm_log. rewrite F1. cbn. norm_log.
  rewrite <- Nat.add_assoc. cbn [Nat.add]. rewrite F2.
  rewrite lookup_delete_eq. cbn. repeat split.
Qed.

Lemma deleteOne_twice_witness :
  fst (deleteOne sampleId (calm sampleStore 9))
  = success 200 "Delete One Thread Success" NoData
  /\ threads (store (snd (deleteOne sampleId (calm sampleStore 9)))) !! sampleId = None
  /\ fst (deleteOne sampleId (snd (deleteOne sampleId (calm sampleStore 9))))
     = handleError (threadNotFound sampleId).
Proof.
  exact (deleteOne_twice sampleId sampleThread (calm sampleStore 9)
           eq_refl eq_refl eq_refl eq_refl eq_refl).
Defined.

(** ** What [add] can do *)

Lemma updated_row_columns now e row :
  let r := updated_row now e row in
  thread_content r = e_content e
  /\ thread_image r = match e_image e with
                      | Some i => Some i
                      | None => thread_image row
                      end
  /\ thread_user r = match e_user e with
                     | Some u => user_id u
                     | None => thread_user row
                     end
  /\ thread_created_at r = thread_created_at row.
Proof.
  cbv zeta. unfold updated_row.
  destruct (bool_decide (e_content e = thread_content row)) eqn:C;
    [|cbn; repeat split].
  destruct (bool_decide (_ = thread_image row)) eqn:I; [|cbn; repeat split].
  destruct (bool_decide (_ = thread_user row)) eqn:U; [|cbn; repeat split].
  apply bool_decide_eq_true in C, I, U. cbn. repeat split; congruence.
Qed.

Lemma save_new_thread now uuid body u s :
  exists row,
    save_thread now (newThread uuid body u) s
    = Some (set_threads (insert uuid row) s)
    /\ thread_content row = body_content body
    /\ thread_user row = user_id u
    /\ (truthy (body_image body) = true -> thread_image row = body_image body)
    /\ (threads s !! uuid = None ->
        thread_created_at row = now
        /\ thread_image row
           = if truthy (body_image body) then body_image body else None).
Proof.
  unfold save_thread. cbn [e_id newThread].
  destruct (threads s !! uuid) as [old|] eqn:E.
  - eexists. split; [reflexivity|].
    destruct (updated_row_columns now (newThread uuid body u) old)
      as (C & I & U & _).
    cbn [newThread e_content e_image e_user] in *.
    repeat split; try assumption; try discriminate.
    intros T. rewrite I, T. destruct (body_image body); [reflexivity|discriminate].
  - cbn. eexists. split; [reflexivity|]. cbn. repeat split.
    intros T. rewrite T. reflexivity.
Qed.

(** Every run of [add] is one of six: the user lookup is refused; the
    user is unknown; the save is refused; the Thread is saved and there
    is no upload to delete; the deletion is refused; everything goes
    through. *)
Lemma add_cases uuid authId body w :
  let k := length (log w) in
  let run := add uuid authId body w in
  (fault w k = true
   /\ run = (Failed (StoreError (UserFindOne authId)),
             after w (store w) [UserFindOne authId]))
  \/ (fault w k = false /\ users (store w) !! authId = None
      /\ run = (Failed (userNotFound authId),
                after w (store w) [UserFindOne authId]))
  \/ exists u s1,
      let e := newThread uuid body u in
      fault w k = false /\ users (store w) !! authId = Some u
      /\ save_thread (clock w) e (store w) = Some s1
      /\ ((fault w (k + 1) = true
           /\ run = (Failed (StoreError (ThreadSave e)),
                     after w (store w) [UserFindOne authId; ThreadSave e]))
          \/ (fault w (k + 1) = false
              /\ truthy (body_uploadId body) = false
              /\ run = (success 201 "Add Thread Success" NoData,
                        after w s1 [UserFindOne authId; ThreadSave e]))
          \/ exists uploadId,
              fault w (k + 1) = false
              /\ body_uploadId body = Some uploadId
              /\ truthy (Some uploadId) = true
              /\ ((fault w (k + 2) = true
                   /\ run = (Failed (StoreError (UploadDelete uploadId)),
                             after w s1 [UserFindOne authId; ThreadSave e;
                                         UploadDelete uploadId]))
                  \/ (fault w (k + 2) = false
                      /\ run = (success 201 "Add Thread Success" NoData,
                                after w (set_uploads (delete uploadId) s1)
                                  [UserFindOne authId; ThreadSave e;
                                   UploadDelete uploadId])))).
Proof.
  cbv zeta. unfold after. unfold_handlers.
  destruct (fault w (length (log w))) eqn:F0; [left; split; reflexivity|].
  right. cbn -[truthy].
  destruct (users (store w) !! authId) as [u|] eqn:U;
    [right | left; repeat split; reflexivity].
  destruct (save_new_thread (clock w) uuid body u (store w)) as (row & S & _).
  exists u, (set_threads (insert uuid row) (store w)).
  split; [reflexivity|]. split; [reflexivity|]. split; [exact S|].
  norm_log.
  destruct (fault w (length (log w) + 1)) eqn:F1.
  { left. rewrite <- !app_assoc. split; reflexivity. }
  right. rewrite S. cbn -[truthy].
  destruct (body_uploadId body) as [uploadId|] eqn:B.
  2:{ left. rewrite <- !app_assoc. repeat split; reflexivity. }
  destruct (truthy (Some uploadId)) eqn:T.
  2:{ left. cbn. rewrite <- !app_assoc. repeat split; reflexivity. }
  right. exists uploadId. split; [reflexivity|]. split; [reflexivity|].
  split; [exact T|].
  cbn. norm_log. rewrite <- Nat.add_assoc. cbn [Nat.add].
  destruct (fault w (length (log w) + 2)) eqn:F2; [left|right];
    rewrite <- !app_assoc; split; reflexivity.
Qed.

Lemma saved_row_is_stored now uuid body u s s1 :
  save_thread now (newThread uuid body u) s = Some s1 ->
  exists t, threads s1 !! uuid = Some t
            /\ thread_content t = body_content body
            /\ thread_user t = user_id u
            /\ uploads s1 = uploads s.
Proof.
  intros E. destruct (save_new_thread now uuid body u s) as (row & S & C & O & _).
  rewrite S in E. injection E as <-.
  exists row. cbn. rewrite lookup_insert_eq. repeat split; assumption.
Qed.

Ltac split_ops H pre :=
  repeat (destruct pre as [|? pre]; cbn in H;
          [ first [ discriminate H | injection H as ? ? ? | injection H as ? ?
                  | injection H as ? ]
          | first [ discriminate H | injection H as ? H ] ]);
  try discriminate.

(** C7.  In any run of [add]: the Upload repository is asked to delete at
    most once; such a call carries the [uploadId] of the request, is the
    last call of the run and comes after the save of the new Thread,
    which the store then holds; without an [uploadId] no deletion is
    issued; and when the store refuses the deletion, the handler reports
    that error while the saved Thread stays in the store (and the Upload
    table is untouched). *)
Theorem add_deletes_upload_after_save
    (uuid authId : string) (body : Body) (w : World) :
  let r := fst (add uuid authId body w) in
  let w' := snd (add uuid authId body w) in
  let ops := issued w w' in
  (length (List.filter is_upload_delete ops) <= 1)%nat
  /\ (forall pre id post,
        ops = pre ++ UploadDelete id :: post ->
        body_uploadId body = Some id
        /\ post = []
        /\ (exists u, pre = [UserFindOne authId; ThreadSave (newThread uuid body u)])
        /\ exists t, threads (store w') !! uuid = Some t
                     /\ thread_content t = body_content body)
  /\ (body_uploadId body = None ->
      forallb (fun op => negb (is_upload_delete op)) ops = true)
  /\ (forall id,
        last ops = Some (UploadDelete id) ->
        fault w (length (log w) + 2) = true ->
        r = handleError (StoreError (UploadDelete id))
        /\ uploads (store w') = uploads (store w)
        /\ exists t, threads (store w') !! uuid = Some t
                     /\ thread_content t = body_content body).
Proof.
  cbv zeta.
  destruct (add_cases uuid authId body w)
    as [(F0 & E) | [(F0 & U & E) | (u & s1 & F0 & U & S & C)]];
    cbv zeta in *.
  1,2: rewrite E; unfold after; cbn [fst snd]; rewrite issued_app;
    (split; [cbn; lia|]); (split; [intros pre id post H; split_ops H pre|]);
    (split; [reflexivity|]); intros id H; discriminate H.
  destruct (saved_row_is_stored _ _ _ _ _ _ S) as (t & L & Ct & _ & Up).
  destruct C as [(F1 & E) | [(F1 & T & E) | (uploadId & F1 & B & T & C)]].
  1,2: rewrite E; unfold after; cbn [fst snd]; rewrite issued_app;
    (split; [cbn; lia|]); (split; [intros pre id post H; split_ops H pre|]);
    (split; [reflexivity|]); intros id H; discriminate H.
  destruct C as [(F2 & E) | (F2 & E)];
    rewrite E; unfold after; cbn [fst snd]; rewrite issued_app;
    (split; [cbn; lia|]).
  - split; [|split].
    + intros pre id post H. split_ops H pre. subst.
      repeat split; eauto.
    + rewrite B. discriminate.
    + intros id H _. injection H as <-. repeat split; eauto.
  - split; [|split].
    + intros pre id post H. split_ops H pre. subst.
      repeat split; eauto.
    + rewrite B. discriminate.
    + intros id _ H. congruence.
Qed.

Example add_refused_deletion_keeps_thread :
  let body := {| body_content := "hello"; body_image := Some "a.png";
                 body_uploadId := Some "up1" |} in
  let w := refusing 2 usersOnly 9 in
  fst (add otherId "u1" body w) = Failed (StoreError (UploadDelete "up1"))
  /\ thread_content <$> threads (store (snd (add otherId "u1" body w))) !! otherId
     = Some "hello"
  /\ uploads (store (snd (add otherId "u1" body w))) !! "up1" = Some "staged/a.png".
Proof. vm_compute. repeat split. Qed.

(** ** Reading back *)

Lemma findOne_present threadId t w :
  isValidId threadId = true ->
  threads (store w) !! threadId = Some t ->
  fault w (length (log w)) = false ->
  findOne threadId w
  = (success 200 "Find One Thread Success"
       (OneThread (view (store w) replies_of threadId t)),
     after w (store w) [ThreadFindOne threadId true]).
Proof.
  unfold isValidId. intros V T F. unfold_handlers. rewrite V. cbn [negb].
  rewrite F, T. reflexivity.
Qed.

(** C5, as amended.  After an [add] that succeeded with a well-formed
    generated identifier, a [findOne] on that identifier which the store
    answers returns a Thread whose content is the content supplied and
    whose image is the image supplied whenever that image is a non-empty
    string; when the identifier was fresh, the Thread carries that
    identifier, and an absent or empty image leaves it without image. *)
Theorem add_then_findOne (uuid authId : string) (body : Body) (w : World) :
  let w1 := snd (add uuid authId body w) in
  fst (add uuid authId body w) = success 201 "Add Thread Success" NoData ->
  isValidId uuid = true ->
  fault w1 (length (log w1)) = false ->
  exists t,
    fst (findOne uuid w1) = success 200 "Find One Thread Success" (OneThread t)
    /\ tv_id t = uuid
    /\ tv_content t = body_content body
    /\ (truthy (body_image body) = true -> tv_image t = body_image body)
    /\ (threads (store w) !! uuid = None ->
        tv_image t = if truthy (body_image body) then body_image body else None).
Proof.
  cbv zeta. intros Ok V F.
  assert (exists row,
             threads (store (snd (add uuid authId body w))) !! uuid = Some row
             /\ thread_content row = body_content body
             /\ (truthy (body_image body) = true ->
                 thread_image row = body_image body)
             /\ (threads (store w) !! uuid = None ->
                 thread_image row
                 = if truthy (body_image body) then body_image body else None))
    as (row & L & C & I & N).
  { destruct (add_cases uuid authId body w)
      as [(_ & E) | [(_ & _ & E) | (u & s1 & _ & _ & S & Cs)]];
      cbv zeta in *; try (rewrite E in Ok; discriminate Ok).
    destruct (save_new_thread (clock w) uuid body u (store w))
      as (row & S' & C & _ & I & N).
    rewrite S' in S. injection S as <-.
    exists row.
    destruct Cs as [(_ & E) | [(_ & _ & E) | (uploadId & _ & _ & _ & Cs)]];
      [rewrite E in Ok; discriminate Ok | |].
    - rewrite E. cbn. rewrite lookup_insert_eq. repeat split; try assumption.
      intros Fr. apply N, Fr.
    - destruct Cs as [(_ & E) | (_ & E)];
        [rewrite E in Ok; discriminate Ok|].
      rewrite E. cbn. rewrite lookup_insert_eq. repeat split; try assumption.
      intros Fr. apply N, Fr. }
  rewrite (findOne_present uuid row _ V L F). cbn [fst].
  eexists. split; [reflexivity|]. cbn. repeat split; assumption.
Qed.

Lemma add_then_findOne_witness :
  exists t,
    fst (findOne otherId
           (snd (add otherId "u1"
                   {| body_content := "hello"; body_image := Some "a.png";
                      body_uploadId := Some "up1" |}
                   (calm usersOnly 9))))
    = success 200 "Find One Thread Success" (OneThread t)
    /\ tv_id t = otherId
    /\ tv_content t = "hello"
    /\ tv_image t = Some "a.png".
Proof.
  destruct (add_then_findOne otherId "u1"
              {| body_content := "hello"; body_image := Some "a.png";
                 body_uploadId := Some "up1" |}
              (calm usersOnly 9) eq_refl eq_refl eq_refl)
    as (t & A & B & C & D & _).
  exists t. split; [exact A|]. split; [exact B|]. split; [exact C|].
  exact (D eq_refl).
Defined.

(** C5, as stated, fails: [add] drops an image that is the empty string,
    so the Thread read back has no image although one was supplied. *)
Lemma add_then_findOne_drops_empty_image :
  let body := {| body_content := "hello"; body_image := Some "";
                 body_uploadId := None |} in
  let w1 := snd (add otherId "u1" body (calm usersOnly 9)) in
  fst (add otherId "u1" body (calm usersOnly 9))
  = success 201 "Add Thread Success" NoData
  /\ tv_content <$> served (fst (findOne otherId w1)) = Some (body_content body)
  /\ tv_image <$> served (fst (findOne otherId w1)) = Some None
  /\ tv_image <$> served (fst (findOne otherId w1)) <> Some (body_image body).
Proof. vm_compute. repeat split. discriminate. Qed.

Example findOne_sample :
  served (fst (findOne sampleId (calm sampleStore 9)))
  = Some {| tv_id := sampleId; tv_content := "first"; tv_image := Some "a.png";
            tv_created_at := 5; tv_updated_at := 5; tv_user := Some alice;
            tv_likes := [{| lv_id := "l1"; lv_created_at := 6;
                            lv_updated_at := 6; lv_user := Some bob |}];
            tv_replies := [{| rv_id := "r1"; rv_content := "welcome";
                              rv_image := None; rv_created_at := 7;
                              rv_updated_at := 7; rv_user := Some bob |}] |}.
Proof. vm_compute. reflexivity. Qed.

(** ** What each handler does to the tables *)

Lemma save_loaded_thread now id t content s :
  threads s !! id = Some t ->
  save_thread now
    {| e_id := e_id (entity_of id t); e_content := content;
       e_image := e_image (entity_of id t); e_user := e_user (entity_of id t) |} s
  = Some (set_threads (insert id (withContent now content t)) s).
Proof.
  intros T. unfold save_thread. cbn [e_id entity_of]. rewrite T.
  do 3 f_equal. unfold updated_row, withContent.
  cbn [e_content e_image e_user entity_of].
  assert (match thread_image t with
          | Some i => Some i
          | None => thread_image t
          end = thread_image t) as -> by (destruct (thread_image t); reflexivity).
  rewrite (bool_decide_eq_true_2 (thread_image t = thread_image t) eq_refl).
  rewrite (bool_decide_eq_true_2 (thread_user t = thread_user t) eq_refl).
  rewrite !andb_true_r. reflexivity.
Qed.

Lemma withContent_columns now content t :
  withContent now content t
  = {| thread_content := content;
       thread_image := thread_image t;
       thread_created_at := thread_created_at t;
       thread_updated_at := if bool_decide (content = thread_content t)
                            then thread_updated_at t else now;
       thread_user := thread_user t |}.
Proof.
  unfold withContent. case_bool_decide as C; [|reflexivity].
  subst content. destruct t; reflexivity.
Qed.

Lemma findAll_store q w : store (snd (findAll q w)) = store w.
Proof.
  unfold_handlers. destruct (fault w _); [reflexivity|].
  destruct (as_count (skipOf (pageOf q))); reflexivity.
Qed.

Lemma findOne_store threadId w : store (snd (findOne threadId w)) = store w.
Proof.
  unfold_handlers. destruct (negb _); [reflexivity|].
  destruct (fault w _); [reflexivity|]. cbn.
  destruct (threads (store w) !! threadId); reflexivity.
Qed.

Lemma updateOne_cases threadId content w :
  (store (snd (updateOne threadId content w)) = store w
   /\ fst (updateOne threadId content w)
      <> success 200 "Update One Thread Success" NoData)
  \/ exists t,
      threads (store w) !! threadId = Some t
      /\ store (snd (updateOne threadId content w))
         = set_threads (insert threadId (withContent (clock w) content t)) (store w)
      /\ fst (updateOne threadId content w)
         = success 200 "Update One Thread Success" NoData.
Proof.
  unfold_handlers. destruct (negb _); [left; split; [reflexivity|discriminate]|].
  destruct (fault w (length (log w))); [left; split; [reflexivity|discriminate]|].
  cbn. destruct (threads (store w) !! threadId) as [t|] eqn:T;
    [|left; split; [reflexivity|discriminate]].
  cbn [fmap option_fmap option_map]. norm_log.
  destruct (fault w (length (log w) + 1));
    [left; split; [reflexivity|discriminate]|].
  rewrite (save_loaded_thread _ _ _ _ _ T). cbn.
  right. exists t. repeat split.
Qed.

Lemma deleteOne_store threadId w :
  store (snd (deleteOne threadId w)) = store w
  \/ store (snd (deleteOne threadId w)) = delete_thread threadId (store w).
Proof.
  unfold_handlers. destruct (negb _); [left; reflexivity|].
  destruct (fault w (length (log w))); [left; reflexivity|].
  cbn. destruct (threads (store w) !! threadId) as [t|];
    [|left; reflexivity].
  cbn [fmap option_fmap option_map]. norm_log.
  destruct (fault w (length (log w) + 1)); [left|right]; reflexivity.
Qed.


(** ** Updating a Thread *)



Example updateOne_sample :
  let w' := snd (updateOne sampleId "edited" (calm sampleStore 9)) in
  fst (updateOne sampleId "edited" (calm sampleStore 9))
  = success 200 "Update One Thread Success" NoData
  /\ threads (store w') !! sampleId
     = Some {| thread_content := "edited"; thread_image := Some "a.png";
               thread_created_at := 5; thread_updated_at := 9;
               thread_user := "u1" |}
  /\ likes (store w') = likes sampleStore
  /\ replies (store w') = replies sampleStore.
Proof. vm_compute. repeat split. Qed.

Example updateOne_same_content_writes_nothing :
  store (snd (updateOne sampleId "first" (calm sampleStore 9))) = sampleStore.
Proof. vm_compute. reflexivity. Qed.
(** ** Listing Threads *)

Section Listing.

Lemma comes_first_iff rank a b :
  newer_first rank a b
  <-> (thread_created_at b.2 < thread_created_at a.2
       \/ (thread_created_at a.2 = thread_created_at b.2
           /\ rank a.1 <= rank b.1))%Z.
Proof.
  unfold newer_first, comes_first.
  rewrite orb_true_iff, andb_true_iff, Z.ltb_lt, Z.eqb_eq, Z.leb_le.
  reflexivity.
Qed.

#[local] Instance newer_first_trans rank : Transitive (newer_first rank).
Proof. intros a b c. rewrite !comes_first_iff. lia. Qed.

#[local] Instance newer_first_total rank : Total (newer_first rank).
Proof. intros a b. rewrite !comes_first_iff. lia. Qed.

Lemma newer_first_created rank a b :
  newer_first rank a b -> (thread_created_at b.2 <= thread_created_at a.2)%Z.
Proof. rewrite comes_first_iff. lia. Qed.

Lemma by_created_at_desc_sorted rank s :
  StronglySorted (newer_first rank) (by_created_at_desc rank s).
Proof. apply StronglySorted_merge_sort; apply _. Qed.

Lemma by_created_at_desc_all rank s :
  by_created_at_desc rank s ≡ₚ map_to_list (threads s).
Proof. apply merge_sort_Permutation. Qed.


Lemma to_double_exact z : (Z.abs z < 2 ^ 53)%Z -> to_double z = Num z.
Proof.
  intros H. unfold to_double.
  destruct (Z.ltb_spec (Z.abs z) (2 ^ 53)); [reflexivity | lia].
Qed.

(** The page is 1 or more, or infinite. *)
Lemma pageOf_range q :
  pageOf q = Inf false \/ exists p, pageOf q = Num p /\ (1 <= p)%Z.
Proof.
  unfold pageOf, clampPage, num_gt.
  destruct (queryPage q) as [|[|]|z]; eauto.
  - right. exists 1%Z. split; [reflexivity | lia].
  - right. exists 1%Z. split; [reflexivity | lia].
  - right. destruct (Z.ltb_spec 1 z); eexists; (split; [reflexivity | lia]).
Qed.

Lemma skip_of_page p :
  (1 <= p)%Z -> (10 * p < 2 ^ 53)%Z ->
  skipOf (Num p) = Num ((p - 1) * 10)
  /\ as_count (skipOf (Num p)) = Some (Z.to_nat ((p - 1) * 10)).
Proof.
  intros H B. unfold skipOf, num_mul, num_sub.
  rewrite (to_double_exact (p * 10)) by lia.
  rewrite (to_double_exact (p * 10 - 10)) by lia.
  replace (p * 10 - 10)%Z with ((p - 1) * 10)%Z by lia.
  split; [reflexivity|]. unfold as_count.
  destruct (Z.leb_spec 0 ((p - 1) * 10)); [reflexivity | lia].
Qed.


(** Every run of [findAll]. *)
Lemma findAll_run q w :
  let op := ThreadFind (skipOf (pageOf q)) (Num 10) in
  findAll q w
  = (if fault w (length (log w)) then Failed (StoreError op)
     else match as_count (skipOf (pageOf q)) with
          | Some k =>
              success 200 "Find All Thread Success"
                (ThreadList
                   (map (listItem (store w))
                      (take 10
                         (drop k (by_created_at_desc
                                    (ties w (length (log w))) (store w))))))
          | None => Failed (StoreError op)
          end,
     after w (store w) [op]).
Proof.
  cbv zeta. unfold_handlers. destruct (fault w (length (log w))); [reflexivity|].
  destruct (as_count (skipOf (pageOf q))) as [k|]; [|reflexivity].
  cbn -[by_created_at_desc skipOf]. unfold after, success.
  do 4 f_equal. rewrite map_map. apply map_ext. intros [id t]. reflexivity.
Qed.

Lemma findAll_answer q p w :
  pageOf q = Num p -> (10 * p < 2 ^ 53)%Z ->
  fault w (length (log w)) = false ->
  findAll q w
  = (success 200 "Find All Thread Success"
       (ThreadList
          (map (listItem (store w))
             (take 10 (drop (Z.to_nat ((p - 1) * 10))
                         (by_created_at_desc (ties w (length (log w)))
                            (store w)))))),
     after w (store w) [ThreadFind (Num ((p - 1) * 10)) (Num 10)]).
Proof.
  intros P B F. rewrite findAll_run. cbv zeta. rewrite F, P.
  assert (1 <= p)%Z as L.
  { destruct (pageOf_range q) as [E | (p' & E & L)]; congruence. }
  destruct (skip_of_page p L B) as [-> ->]. reflexivity.
Qed.


(** The decimal numeral of [n] is made of digits and spells [n]. *)
Lemma numeral_all_digits d :
  forallb ParseInt.is_digit (list_ascii_of_string (NilEmpty.string_of_uint d))
  = true.
Proof. induction d; cbn; auto. Qed.

Lemma numeral_value_acc d acc :
  fold_left (fun a c => 10 * a + ParseInt.digit_value c)%Z
    (list_ascii_of_string (NilEmpty.string_of_uint d)) (Z.pos acc)
  = Z.pos (Pos.of_uint_acc d acc).
Proof.
  revert acc. induction d; intros acc; cbn [NilEmpty.string_of_uint
    list_ascii_of_string fold_left Pos.of_uint_acc]; try reflexivity;
    rewrite <- IHd; f_equal; unfold ParseInt.digit_value;
    match goal with
    | |- context [Z.of_nat (nat_of_ascii ?c)] =>
        let v := eval vm_compute in (Z.of_nat (nat_of_ascii c)) in
        change (Z.of_nat (nat_of_ascii c)) with v
    end; lia.
Qed.

Lemma numeral_value d :
  ParseInt.value (list_ascii_of_string (NilEmpty.string_of_uint d))
  = Z.of_N (Pos.of_uint d).
Proof.
  unfold ParseInt.value.
  induction d; cbn [NilEmpty.string_of_uint list_ascii_of_string fold_left
    Pos.of_uint]; try reflexivity; try exact IHd;
    cbn [Z.of_N]; rewrite <- numeral_value_acc; reflexivity.
Qed.

End Listing.
(** ** The page of a query *)

Section PageParsing.

Import ParseInt.

Lemma digit_is_plain c :
  is_digit c = true ->
  is_ascii_space c = false
  /\ Ascii.eqb c "-" = false
  /\ Ascii.eqb c "+" = false
  /\ (forall b, is_space2 c b = false)
  /\ (forall b d, is_space3 c b d = false).
Proof.
  destruct c as [[] [] [] [] [] [] [] []]; intros H;
    first [discriminate H | repeat split; intros; reflexivity].
Qed.

Lemma trim_start_no_space s : space_width s = 0%nat -> trim_start s = s.
Proof.
  destruct s as [|a [|b [|c r]]]; cbn [space_width trim_start];
    try reflexivity.
  - destruct (is_ascii_space a); [discriminate | reflexivity].
  - destruct (is_ascii_space a); [discriminate|].
    destruct (is_space2 a b); [discriminate | reflexivity].
  - destruct (is_ascii_space a); [discriminate|].
    destruct (is_space2 a b); [discriminate|].
    destruct (is_space3 a b c); [discriminate | reflexivity].
Qed.

Lemma digit_has_no_width c rest :
  is_digit c = true -> space_width (c :: rest) = 0%nat.
Proof.
  intros D. destruct (digit_is_plain c D) as (S & _ & _ & S2 & S3).
  cbn [space_width]. rewrite S.
  destruct rest as [|b [|d r]]; try reflexivity; rewrite S2; try reflexivity.
  rewrite S3. reflexivity.
Qed.

Lemma digits_of_prefix ds junk :
  forallb is_digit ds = true ->
  starts_with_digit junk = false ->
  digits (ds ++ junk) = ds.
Proof.
  intros D J. induction ds as [|c ds IH];
    cbn [app digits forallb starts_with_digit] in *.
  - destruct junk as [|j junk]; [reflexivity|].
    cbn [starts_with_digit] in J. cbn [digits]. rewrite J. reflexivity.
  - apply andb_prop in D as [Dc D]. rewrite Dc. f_equal. apply IH, D.
Qed.

Lemma parse_prefix ds junk :
  ds <> [] ->
  forallb is_digit ds = true ->
  starts_with_digit junk = false ->
  parse (ds ++ junk) = to_double (value ds).
Proof.
  intros N D J. destruct ds as [|c ds]; [contradiction|].
  pose proof (digits_of_prefix (c :: ds) junk D J) as P.
  cbn [forallb] in D. apply andb_prop in D as [Dc D].
  destruct (digit_is_plain c Dc) as (_ & M & Pl & _).
  unfold parse.
  rewrite (trim_start_no_space ((c :: ds) ++ junk))
    by (apply digit_has_no_width, Dc).
  cbn [app]. rewrite M, Pl.
  change (c :: ds ++ junk) with ((c :: ds) ++ junk). rewrite P.
  f_equal. lia.
Qed.

Lemma parse_no_digit c rest :
  is_digit c = false -> space_width (c :: rest) = 0%nat ->
  c <> "-"%char -> c <> "+"%char ->
  parse (c :: rest) = NaN.
Proof.
  intros D S M P. unfold parse. rewrite (trim_start_no_space _ S).
  apply Ascii.eqb_neq in M, P. rewrite M, P. cbn [digits]. rewrite D.
  reflexivity.
Qed.

Lemma list_of_append s1 s2 :
  list_ascii_of_string (s1 ++ s2)
  = list_ascii_of_string s1 ++ list_ascii_of_string s2.
Proof.
  induction s1 as [|c s1 IH]; [reflexivity|].
  change (c :: list_ascii_of_string (s1 ++ s2)
          = c :: (list_ascii_of_string s1 ++ list_ascii_of_string s2)).
  f_equal. exact IH.
Qed.

Lemma decimal_nonempty n : list_ascii_of_string (decimal n) <> [].
Proof.
  unfold decimal. destruct n as [|p]; [discriminate|].
  cbn [N.to_uint]. pose proof (DecimalPos.Unsigned.to_uint_nonnil p) as H.
  destruct (Pos.to_uint p); [contradiction | discriminate ..].
Qed.

(** [parseInt] reads the decimal numeral of [n], whatever follows it
    that is not a digit, as the double of [n]. *)
Lemma parseInt_decimal n junk :
  starts_with_digit (list_ascii_of_string junk) = false ->
  parseInt (decimal n ++ junk) = to_double (Z.of_N n).
Proof.
  intros J. unfold parseInt. rewrite list_of_append.
  rewrite parse_prefix.
  - unfold decimal. rewrite numeral_value.
    change (Pos.of_uint (N.to_uint n)) with (N.of_uint (N.to_uint n)).
    rewrite DecimalN.Unsigned.of_to. reflexivity.
  - apply decimal_nonempty.
  - apply numeral_all_digits.
  - exact J.
Qed.

Lemma pageOf_decimal n junk :
  starts_with_digit (list_ascii_of_string junk) = false ->
  (Z.of_N n < 2 ^ 53)%Z ->
  parseInt (decimal n ++ junk) = Num (Z.of_N n)
  /\ pageOf (QString (decimal n ++ junk)) = Num (Z.max 1 (Z.of_N n)).
Proof.
  intros J B.
  assert (parseInt (decimal n ++ junk) = Num (Z.of_N n)) as E
    by (rewrite (parseInt_decimal n junk J); apply to_double_exact; lia).
  split; [exact E|].
  unfold pageOf, clampPage. cbn [queryPage]. rewrite E. cbn [num_gt].
  destruct (Z.ltb_spec 1 (Z.of_N n)); f_equal; lia.
Qed.

End PageParsing.

(** C10.  [findAll] takes its page from the query by [parseInt]: a page
    that is absent or not a string is 1; the page of a string is what
    [parseInt] makes of it, put through the comparison [page > 1], which
    is false for NaN, so that one comparison does both the clamping and
    the NaN case; [parseInt] yields NaN for the empty string and for a
    string that starts with a character that is neither a digit, nor
    white space, nor a sign; and a decimal numeral followed by anything
    that is not a digit is read as the number it spells (as a double:
    itself below 2^53), which becomes the page when it exceeds 1, so
    "3abc" is page 3. *)
Theorem findAll_page_parsing :
  (forall q, (forall s, q <> QString s) -> queryPage q = Num 1 /\ pageOf q = Num 1)
  /\ (forall s,
        pageOf (QString s)
        = if num_gt (parseInt s) (Num 1) then parseInt s else Num 1)
  /\ (forall s, parseInt s = NaN -> pageOf (QString s) = Num 1)
  /\ num_gt NaN (Num 1) = false
  /\ parseInt "" = NaN
  /\ (forall c rest,
        ParseInt.is_digit c = false ->
        ParseInt.space_width (c :: list_ascii_of_string rest) = 0%nat ->
        c <> "-"%char -> c <> "+"%char ->
        parseInt (String c rest) = NaN)
  /\ (forall (n : N) (junk : string),
        ParseInt.starts_with_digit (list_ascii_of_string junk) = false ->
        parseInt (decimal n ++ junk) = to_double (Z.of_N n)
        /\ ((Z.of_N n < 2 ^ 53)%Z ->
            parseInt (decimal n ++ junk) = Num (Z.of_N n)
            /\ pageOf (QString (decimal n ++ junk)) = Num (Z.max 1 (Z.of_N n))))
  /\ (forall ds junk,
        ds <> [] ->
        forallb ParseInt.is_digit ds = true ->
        ParseInt.starts_with_digit junk = false ->
        parseInt (string_of_list_ascii (ds ++ junk))
        = to_double (ParseInt.value ds))
  /\ parseInt "3abc" = Num 3
  /\ pageOf (QString "3abc") = Num 3.
Proof.
  split.
  { intros q H. destruct q as [|s| |]; try (split; reflexivity).
    destruct (H s eq_refl). }
  split; [reflexivity|].
  split.
  { intros s H. unfold pageOf, queryPage. rewrite H. reflexivity. }
  split; [reflexivity|]. split; [reflexivity|].
  split.
  { intros c rest D S M P. unfold parseInt. cbn [list_ascii_of_string].
    apply parse_no_digit; assumption. }
  split.
  { intros n junk J. split; [apply parseInt_decimal, J|].
    intros B. apply pageOf_decimal; assumption. }
  split.
  { intros ds junk N D J. unfold parseInt.
    rewrite list_ascii_of_string_of_list_ascii.
    apply parse_prefix; assumption. }
  split; reflexivity.
Qed.

Example parseInt_samples :
  parseInt "42xyz" = Num 42
  /\ parseInt "abc" = NaN
  /\ parseInt "abc3" = NaN
  /\ parseInt " 5" = Num 5
  /\ parseInt (String (ascii_of_nat 194) (String (ascii_of_nat 160) "5")) = Num 5
  /\ parseInt "+5" = Num 5
  /\ parseInt "-3" = Num (-3)
  /\ parseInt "0x10" = Num 0
  /\ parseInt "2.9" = Num 2
  /\ parseInt "007" = Num 7
  /\ parseInt "9007199254740993" = Num 9007199254740992
  /\ parseInt (repeated "9" 400) = Inf false
  /\ pageOf (QString "-3") = Num 1
  /\ pageOf (QArray ["2"; "3"]) = Num 1.
Proof. vm_compute. repeat split. Qed.

(** ** The listing, page by page *)

Section Pages.





Lemma findAll_answer_at q k w :
  skipOf (pageOf q) = Num k -> (0 <= k)%Z ->
  fault w (length (log w)) = false ->
  fst (findAll q w)
  = success 200 "Find All Thread Success"
      (ThreadList
         (map (listItem (store w))
            (take 10 (drop (Z.to_nat k)
                        (by_created_at_desc (ties w (length (log w)))
                           (store w)))))).
Proof.
  intros S K F. rewrite findAll_run. cbv zeta. rewrite F, S.
  unfold as_count. destruct (Z.leb_spec 0 k); [reflexivity | lia].
Qed.


End Pages.



Example findAll_second_page :
  map tv_id <$> listed (fst (findAll (QString "2") (calm busyStore 99)))
  = Some ["B"; "A"]
  /\ map tv_id <$> listed (fst (findAll (QString "0") (calm busyStore 99)))
     = Some ["L"; "K"; "J"; "I"; "H"; "G"; "F"; "E"; "D"; "C"]
  /\ listed (fst (findAll (QString "3") (calm busyStore 99))) = Some [].
Proof. vm_compute. repeat split. Qed.
(** * Further properties of the handlers *)

(** ** Every run of the other handlers *)

Lemma findAll_cases q w :
  let op := ThreadFind (skipOf (pageOf q)) (Num 10) in
  (fault w (length (log w)) = true
   /\ findAll q w = (Failed (StoreError op), after w (store w) [op]))
  \/ (fault w (length (log w)) = false
      /\ exists resp,
          findAll q w = (resp, after w (store w) [op])
          /\ (resp = Failed (StoreError op)
              \/ exists items,
                  resp = success 200 "Find All Thread Success"
                           (ThreadList items))).
Proof.
  cbv zeta. rewrite findAll_run. cbv zeta.
  destruct (fault w (length (log w))); [left; split; reflexivity | right].
  split; [reflexivity|].
  destruct (as_count (skipOf (pageOf q))) as [k|]; eexists;
    (split; [reflexivity|]); [right; eexists; reflexivity | left; reflexivity].
Qed.

Lemma findOne_cases threadId w :
  let op := ThreadFindOne threadId true in
  (isValidId threadId = false /\ findOne threadId w = (Failed invalidId, w))
  \/ (isValidId threadId = true /\ fault w (length (log w)) = true
      /\ findOne threadId w = (Failed (StoreError op), after w (store w) [op]))
  \/ (isValidId threadId = true /\ fault w (length (log w)) = false
      /\ threads (store w) !! threadId = None
      /\ findOne threadId w
         = (Failed (threadNotFound threadId), after w (store w) [op]))
  \/ exists t,
      isValidId threadId = true /\ fault w (length (log w)) = false
      /\ threads (store w) !! threadId = Some t
      /\ findOne threadId w
         = (success 200 "Find One Thread Success"
              (OneThread (view (store w) replies_of threadId t)),
            after w (store w) [op]).
Proof.
  cbv zeta. unfold isValidId. unfold_handlers.
  destruct (test uuidRegex threadId); cbn [negb];
    [right | left; split; reflexivity].
  destruct (fault w (length (log w))); [left; repeat split|right].
  destruct (threads (store w) !! threadId) as [t|];
    [right; exists t | left]; repeat split.
Qed.

Lemma updateOne_runs threadId content w :
  let op := ThreadFindOne threadId false in
  (isValidId threadId = false
   /\ updateOne threadId content w = (Failed invalidId, w))
  \/ (isValidId threadId = true /\ fault w (length (log w)) = true
      /\ updateOne threadId content w
         = (Failed (StoreError op), after w (store w) [op]))
  \/ (isValidId threadId = true /\ fault w (length (log w)) = false
      /\ threads (store w) !! threadId = None
      /\ updateOne threadId content w
         = (Failed (threadNotFound threadId), after w (store w) [op]))
  \/ exists t e,
      isValidId threadId = true /\ fault w (length (log w)) = false
      /\ threads (store w) !! threadId = Some t
      /\ e = {| e_id := threadId; e_content := content;
                e_image := thread_image t; e_user := None |}
      /\ ((fault w (length (log w) + 1) = true
           /\ updateOne threadId content w
              = (Failed (StoreError (ThreadSave e)),
                 after w (store w) [op; ThreadSave e]))
          \/ (fault w (length (log w) + 1) = false
              /\ updateOne threadId content w
                 = (success 200 "Update One Thread Success" NoData,
                    after w (set_threads (insert threadId (withContent (clock w) content t))
                               (store w))
                      [op; ThreadSave e]))).
Proof.
  cbv zeta. unfold isValidId. unfold_handlers.
  destruct (test uuidRegex threadId); cbn [negb];
    [right | left; split; reflexivity].
  destruct (fault w (length (log w))); [left; repeat split|right].
  destruct (threads (store w) !! threadId) as [t|] eqn:T;
    [right | left; repeat split].
  exists t. eexists. do 4 (split; [reflexivity|]).
  cbn [fmap option_fmap option_map]. norm_log.
  destruct (fault w (length (log w) + 1)); [left|right];
    (split; [reflexivity|]).
  - unfold after. rewrite <- !app_assoc. reflexivity.
  - rewrite (save_loaded_thread _ _ _ _ _ T). cbn.
    unfold after. rewrite <- !app_assoc. reflexivity.
Qed.

Lemma deleteOne_runs threadId w :
  let op := ThreadFindOne threadId false in
  (isValidId threadId = false /\ deleteOne threadId w = (Failed invalidId, w))
  \/ (isValidId threadId = true /\ fault w (length (log w)) = true
      /\ deleteOne threadId w = (Failed (StoreError op), after w (store w) [op]))
  \/ (isValidId threadId = true /\ fault w (length (log w)) = false
      /\ threads (store w) !! threadId = None
      /\ deleteOne threadId w
         = (Failed (threadNotFound threadId), after w (store w) [op]))
  \/ exists t,
      isValidId threadId = true /\ fault w (length (log w)) = false
      /\ threads (store w) !! threadId = Some t
      /\ ((fault w (length (log w) + 1) = true
           /\ deleteOne threadId w
              = (Failed (StoreError (ThreadDelete threadId)),
                 after w (store w) [op; ThreadDelete threadId]))
          \/ (fault w (length (log w) + 1) = false
              /\ deleteOne threadId w
                 = (success 200 "Delete One Thread Success" NoData,
                    after w (delete_thread threadId (store w))
                      [op; ThreadDelete threadId]))).
Proof.
  cbv zeta. unfold isValidId. unfold_handlers.
  destruct (test uuidRegex threadId); cbn [negb];
    [right | left; split; reflexivity].
  destruct (fault w (length (log w))); [left; repeat split|right].
  destruct (threads (store w) !! threadId) as [t|] eqn:T;
    [right | left; repeat split].
  exists t. do 3 (split; [reflexivity|]).
  cbn [fmap option_fmap option_map]. norm_log.
  destruct (fault w (length (log w) + 1)); [left|right];
    (split; [reflexivity|]); unfold after; rewrite <- !app_assoc; reflexivity.
Qed.

(** ** Refused calls *)

Ltac read_run E :=
  rewrite E in *; unfold after in *; cbn [fst snd store] in *;
  rewrite ?issued_app, ?issued_same in *.

Ltac pick_call L i :=
  destruct i as [|[|[|i]]]; cbn in L; try discriminate L;
  try (injection L as <-).

(** X1.  In any run of any handler, a call that the store refuses is the
    last call of the run, and the response reports exactly that call's
    store error: no handler retries, skips or recovers from a refused
    call, and none answers with success after one. *)
Theorem refused_call_ends_the_run
    (r : Request) (w : World) (i : nat) (op : RepoOp) :
  issued w (snd (handle r w)) !! i = Some op ->
  fault w (length (log w) + i) = true ->
  fst (handle r w) = handleError (StoreError op)
  /\ length (issued w (snd (handle r w))) = S i.
Proof.
  intros L F.
  destruct r as [uuid authId body | q | threadId | threadId content | threadId];
    cbn [handle] in *.
  - destruct (add_cases uuid authId body w)
      as [(F0 & E) | [(F0 & U & E) | (u & s1 & F0 & U & S & C)]];
      cbv zeta in *.
    + read_run E. pick_call L i. split; reflexivity.
    + read_run E. pick_call L i. rewrite Nat.add_0_r in F. congruence.
    + destruct C as [(F1 & E) | [(F1 & T & E) | (uploadId & F1 & B & T & C)]].
      * read_run E. pick_call L i; [rewrite Nat.add_0_r in F; congruence|].
        split; reflexivity.
      * read_run E. pick_call L i; [rewrite Nat.add_0_r in F|]; congruence.
      * destruct C as [(F2 & E) | (F2 & E)]; read_run E; pick_call L i;
          try (rewrite Nat.add_0_r in F); try congruence.
        split; reflexivity.
  - destruct (findAll_cases q w) as [(F0 & E) | (F0 & resp & E & _)];
      cbv zeta in *;
      read_run E; pick_call L i; rewrite Nat.add_0_r in F; try congruence.
    split; reflexivity.
  - destruct (findOne_cases threadId w)
      as [(V & E) | [(V & F0 & E) | [(V & F0 & T & E) | (t & V & F0 & T & E)]]];
      cbv zeta in *; read_run E; pick_call L i;
      rewrite Nat.add_0_r in F; try congruence.
    split; reflexivity.
  - destruct (updateOne_runs threadId content w)
      as [(V & E) | [(V & F0 & E) | [(V & F0 & T & E)
          | (t & e & V & F0 & T & Ee & [(F1 & E) | (F1 & E)])]]];
      cbv zeta in *; read_run E; pick_call L i;
      try (rewrite Nat.add_0_r in F); try congruence;
      split; reflexivity.
  - destruct (deleteOne_runs threadId w)
      as [(V & E) | [(V & F0 & E) | [(V & F0 & T & E)
          | (t & V & F0 & T & [(F1 & E) | (F1 & E)])]]];
      cbv zeta in *; read_run E; pick_call L i;
      try (rewrite Nat.add_0_r in F); try congruence;
      split; reflexivity.
Qed.

Lemma refused_call_ends_the_run_witness :
  fst (handle (DeleteOne sampleId) (refusing 1 sampleStore 9))
  = handleError (StoreError (ThreadDelete sampleId))
  /\ length (issued (refusing 1 sampleStore 9)
               (snd (handle (DeleteOne sampleId) (refusing 1 sampleStore 9))))
     = 2%nat.
Proof.
  exact (refused_call_ends_the_run (DeleteOne sampleId)
           (refusing 1 sampleStore 9) 1 (ThreadDelete sampleId)
           eq_refl eq_refl).
Defined.

(** ** What a handler asks of the store *)

Ltac members :=
  repeat match goal with
         | H : _ ∈ [] |- _ => apply elem_of_nil in H; contradiction
         | H : _ ∈ _ :: _ |- _ => apply elem_of_cons in H as [H|H]
         end.

(** X2.  The calls of a run stay with the request: a save carries the
    identifier that [add] generated or that [updateOne] was given, a
    Thread deletion comes only from [deleteOne] and names its identifier,
    an Upload deletion comes only from [add] and names the [uploadId] of
    its body, and only [add] looks up a User, namely the authenticated
    one.  No run issues more than three calls. *)
Theorem calls_stay_with_the_request (r : Request) (w : World) :
  let ops := issued w (snd (handle r w)) in
  (forall e, ThreadSave e ∈ ops ->
     (exists authId body, r = Add (e_id e) authId body)
     \/ (exists content, r = UpdateOne (e_id e) content))
  /\ (forall id, ThreadDelete id ∈ ops -> r = DeleteOne id)
  /\ (forall id, UploadDelete id ∈ ops ->
        exists uuid authId body,
          r = Add uuid authId body /\ body_uploadId body = Some id)
  /\ (forall id, UserFindOne id ∈ ops -> exists uuid body, r = Add uuid id body)
  /\ (length ops <= 3)%nat.
Proof.
  cbv zeta.
  destruct r as [uuid authId body | q | threadId | threadId content | threadId];
    cbn [handle].
  - destruct (add_cases uuid authId body w)
      as [(F0 & E) | [(F0 & U & E) | (u & s1 & F0 & U & S & C)]];
      cbv zeta in *;
      [ | | destruct C as [(F1 & E) | [(F1 & T & E)
                | (uploadId & F1 & B & T & [(F2 & E) | (F2 & E)])]] ];
      read_run E;
      (repeat split; [intros e H | intros id H | intros id H | intros id H
                      | cbn; lia]);
      members; try discriminate H; injection H as H; subst;
      first [ left; do 2 eexists; reflexivity | eauto ].
  - destruct (findAll_cases q w) as [(F0 & E) | (F0 & resp & E & _)];
      cbv zeta in *; read_run E;
      (repeat split; [intros e H | intros id H | intros id H | intros id H
                      | cbn; lia]);
      members; discriminate H.
  - destruct (findOne_cases threadId w)
      as [(V & E) | [(V & F0 & E) | [(V & F0 & T & E) | (t & V & F0 & T & E)]]];
      cbv zeta in *; read_run E;
      (repeat split; [intros e H | intros id H | intros id H | intros id H
                      | cbn; lia]);
      members; discriminate H.
  - destruct (updateOne_runs threadId content w)
      as [(V & E) | [(V & F0 & E) | [(V & F0 & T & E)
          | (t & e0 & V & F0 & T & Ee & [(F1 & E) | (F1 & E)])]]];
      cbv zeta in *; read_run E;
      (repeat split; [intros e H | intros id H | intros id H | intros id H
                      | cbn; lia]);
      members; try discriminate H; injection H as H; subst;
      right; eexists; reflexivity.
  - destruct (deleteOne_runs threadId w)
      as [(V & E) | [(V & F0 & E) | [(V & F0 & T & E)
          | (t & V & F0 & T & [(F1 & E) | (F1 & E)])]]];
      cbv zeta in *; read_run E;
      (repeat split; [intros e H | intros id H | intros id H | intros id H
                      | cbn; lia]);
      members; try discriminate H; injection H as H; subst; reflexivity.
Qed.

(** X3.  What a request can change: none changes the User table; only
    [add] can change the Upload table; [add], [findAll], [findOne] and
    [updateOne] leave the Like and Reply tables alone; a Thread
    identifier enters the store only as the one [add] generated and
    leaves it only as the one [deleteOne] was given. *)
Theorem tables_a_request_can_change (r : Request) (w : World) :
  let s := store w in
  let s' := store (snd (handle r w)) in
  users s' = users s
  /\ ((forall uuid authId body, r <> Add uuid authId body) ->
      uploads s' = uploads s)
  /\ ((forall id, r <> DeleteOne id) ->
      likes s' = likes s /\ replies s' = replies s)
  /\ (forall id, is_Some (threads s' !! id) ->
        is_Some (threads s !! id) \/ exists authId body, r = Add id authId body)
  /\ (forall id, is_Some (threads s !! id) ->
        is_Some (threads s' !! id) \/ r = DeleteOne id).
Proof.
  cbv zeta.
  destruct r as [uuid authId body | q | threadId | threadId content | threadId];
    cbn [handle].
  - destruct (add_cases uuid authId body w)
      as [(F0 & E) | [(F0 & U & E) | (u & s1 & F0 & U & S & C)]];
      cbv zeta in *.
    1,2: rewrite E; cbn; repeat split; auto.
    destruct (save_new_thread (clock w) uuid body u (store w)) as (row & S' & _).
    rewrite S' in S. injection S as <-.
    destruct C as [(F1 & E) | [(F1 & T & E)
              | (uploadId & F1 & B & T & [(F2 & E) | (F2 & E)])]];
      rewrite E; cbn; (split; [reflexivity|]);
      (split; [intros H; destruct (H _ _ _ eq_refl)|]);
      (split; [intros _; split; reflexivity|]);
      (split; intros id H; auto);
      destruct (decide (uuid = id)) as [->|Ne];
      solve [ right; do 2 eexists; reflexivity
            | left; rewrite lookup_insert_ne in H by exact Ne; exact H
            | left; rewrite lookup_insert_eq; eauto
            | left; rewrite lookup_insert_ne by exact Ne; exact H ].
  - rewrite findAll_store. repeat split; auto.
  - rewrite findOne_store. repeat split; auto.
  - destruct (updateOne_cases threadId content w) as [(E & _) | (t & T & E & _)];
      rewrite E; [repeat split; auto|].
    cbn. repeat split; auto.
    + intros id H. left. destruct (decide (threadId = id)) as [->|Ne].
      * rewrite T. eauto.
      * rewrite lookup_insert_ne in H by exact Ne. exact H.
    + intros id H. left. destruct (decide (threadId = id)) as [->|Ne].
      * rewrite lookup_insert_eq. eauto.
      * rewrite lookup_insert_ne by exact Ne. exact H.
  - destruct (deleteOne_store threadId w) as [E | E]; rewrite E;
      [repeat split; auto; intros H; destruct (H _ eq_refl)|].
    cbn. split; [reflexivity|]. split; [reflexivity|].
    split; [intros H; destruct (H _ eq_refl)|]. split.
    + intros id H. left. destruct (decide (threadId = id)) as [->|Ne].
      * rewrite lookup_delete_eq in H. destruct H; discriminate.
      * rewrite lookup_delete_ne in H by exact Ne. exact H.
    + intros id H. destruct (decide (threadId = id)) as [->|Ne];
        [right; reflexivity|left].
      rewrite lookup_delete_ne by exact Ne. exact H.
Qed.

(** X4.  The BadRequest answer is given exactly for a malformed
    identifier: [findOne], [updateOne] and [deleteOne] answer with it if
    and only if the pattern does not match, whatever the store holds or
    does, and [add] and [findAll] never answer with it. *)
Theorem bad_request_iff_malformed (r : Request) (w : World) :
  is_bad_request (fst (handle r w))
  = match r with
    | FindOne threadId | UpdateOne threadId _ | DeleteOne threadId =>
        negb (isValidId threadId)
    | Add _ _ _ | FindAll _ => false
    end.
Proof.
  destruct r as [uuid authId body | q | threadId | threadId content | threadId];
    cbn [handle].
  - destruct (add_cases uuid authId body w)
      as [(F0 & E) | [(F0 & U & E) | (u & s1 & F0 & U & S & C)]];
      cbv zeta in *;
      [ | | destruct C as [(F1 & E) | [(F1 & T & E)
                | (uploadId & F1 & B & T & [(F2 & E) | (F2 & E)])]] ];
      rewrite E; reflexivity.
  - destruct (findAll_cases q w)
      as [(F0 & E) | (F0 & resp & E & [-> | (items & ->)])];
      cbv zeta in *; rewrite E; reflexivity.
  - destruct (findOne_cases threadId w)
      as [(V & E) | [(V & F0 & E) | [(V & F0 & T & E) | (t & V & F0 & T & E)]]];
      cbv zeta in *; rewrite E, V; reflexivity.
  - destruct (updateOne_runs threadId content w)
      as [(V & E) | [(V & F0 & E) | [(V & F0 & T & E)
          | (t & e0 & V & F0 & T & Ee & [(F1 & E) | (F1 & E)])]]];
      cbv zeta in *; rewrite E, V; reflexivity.
  - destruct (deleteOne_runs threadId w)
      as [(V & E) | [(V & F0 & E) | [(V & F0 & T & E)
          | (t & V & F0 & T & [(F1 & E) | (F1 & E)])]]];
      cbv zeta in *; rewrite E, V; reflexivity.
Qed.

(** ** Pages *)

Lemma by_created_at_desc_length rank s :
  length (by_created_at_desc rank s) = size (threads s).
Proof.
  rewrite <- length_map_to_list.
  apply Permutation_length, by_created_at_desc_all.
Qed.

Lemma by_created_at_desc_keys_NoDup rank s :
  NoDup (by_created_at_desc rank s).*1.
Proof.
  rewrite (by_created_at_desc_all rank s). apply NoDup_fst_map_to_list.
Qed.


(** X5.  When the store answers a find from the offset [k], the page
    holds as many Threads as are left from [k] on, up to 10: with [n]
    Threads stored, [min 10 (n - k)] of them, so a page past the end is
    empty and still a success.  For a page [p] with [10 * p < 2^53] the
    offset is [10 * (p - 1)], and every such page before the last is
    full. *)
Theorem findAll_page_size (q : QueryValue) (k : Z) (w : World) :
  skipOf (pageOf q) = Num k -> (0 <= k)%Z ->
  fault w (length (log w)) = false ->
  (exists items,
     fst (findAll q w) = success 200 "Find All Thread Success" (ThreadList items)
     /\ length items = Nat.min 10 (size (threads (store w)) - Z.to_nat k))
  /\ (forall p,
        pageOf q = Num p -> (10 * p < 2 ^ 53)%Z ->
        (1 <= p)%Z /\ Z.to_nat k = (10 * Z.to_nat (p - 1))%nat).
Proof.
  intros S K F. split.
  - rewrite (findAll_answer_at q k w S K F).
    eexists. split; [reflexivity|].
    rewrite length_map, length_take, length_drop, by_created_at_desc_length.
    reflexivity.
  - intros p P B.
    assert (1 <= p)%Z as L.
    { destruct (pageOf_range q) as [E | (p' & E & L)]; congruence. }
    split; [exact L|].
    destruct (skip_of_page p L B) as [E _]. rewrite P, E in S.
    injection S as <-. lia.
Qed.

Lemma findAll_page_size_witness :
  (exists items,
     fst (findAll (QString "2") (calm busyStore 99))
     = success 200 "Find All Thread Success" (ThreadList items)
     /\ length items
        = Nat.min 10 (size (threads (store (calm busyStore 99))) - Z.to_nat 10))
  /\ (forall p,
        pageOf (QString "2") = Num p -> (10 * p < 2 ^ 53)%Z ->
        (1 <= p)%Z /\ Z.to_nat 10 = (10 * Z.to_nat (p - 1))%nat).
Proof.
  refine (findAll_page_size (QString "2") 10 (calm busyStore 99) eq_refl _ eq_refl).
  lia.
Defined.


(** ** The list and the single Thread *)



(** ** Creating a Thread, continued *)

(** X8.  [add] answers 201 exactly when the authenticated User is stored
    and the store refuses none of the calls of the run: the user lookup,
    the save and, for a non-empty [uploadId], the deletion.  Content,
    image and the state of the Thread table play no part. *)
Theorem add_succeeds_iff (uuid authId : string) (body : Body) (w : World) :
  fst (add uuid authId body w) = success 201 "Add Thread Success" NoData
  <-> (is_Some (users (store w) !! authId)
       /\ fault w (length (log w)) = false
       /\ fault w (length (log w) + 1) = false
       /\ (truthy (body_uploadId body) = true ->
           fault w (length (log w) + 2) = false)).
Proof.
  destruct (add_cases uuid authId body w)
    as [(F0 & E) | [(F0 & U & E) | (u & s1 & F0 & U & S & C)]];
    cbv zeta in *.
  - rewrite E. cbn [fst]. split; [discriminate|]. intros (_ & F & _). congruence.
  - rewrite E. cbn [fst]. split; [discriminate|].
    intros ([x X] & _). congruence.
  - destruct C as [(F1 & E) | [(F1 & T & E)
              | (uploadId & F1 & B & T & [(F2 & E) | (F2 & E)])]];
      rewrite E; cbn [fst].
    + split; [discriminate|]. intros (_ & _ & F & _). congruence.
    + split; [|reflexivity]. intros _. rewrite U. repeat split; eauto.
      intros T'. congruence.
    + split; [discriminate|]. rewrite B. intros (_ & _ & _ & F).
      specialize (F T). congruence.
    + split; [|reflexivity]. intros _. rewrite U. repeat split; eauto.
Qed.

Lemma add_success_store uuid authId body w :
  fst (add uuid authId body w) = success 201 "Add Thread Success" NoData ->
  threads (store w) !! uuid = None ->
  exists u,
    users (store w) !! authId = Some u
    /\ store (snd (add uuid authId body w))
       = {| users := users (store w);
            threads :=
              <[uuid := {| thread_content := body_content body;
                           thread_image := if truthy (body_image body)
                                           then body_image body else None;
                           thread_created_at := clock w;
                           thread_updated_at := clock w;
                           thread_user := user_id u |}]> (threads (store w));
            likes := likes (store w);
            replies := replies (store w);
            uploads := match body_uploadId body with
                       | Some uploadId =>
                           if truthy (Some uploadId)
                           then delete uploadId (uploads (store w))
                           else uploads (store w)
                       | None => uploads (store w)
                       end |}.
Proof.
  intros Ok Fr.
  destruct (add_cases uuid authId body w)
    as [(F0 & E) | [(F0 & U & E) | (u & s1 & F0 & U & S & C)]];
    cbv zeta in *; try (rewrite E in Ok; discriminate Ok).
  exists u. split; [exact U|].
  unfold save_thread, newThread in S. cbn in S. rewrite Fr in S.
  injection S as <-.
  destruct C as [(F1 & E) | [(F1 & T & E)
            | (uploadId & F1 & B & T & [(F2 & E) | (F2 & E)])]];
    try (rewrite E in Ok; discriminate Ok); rewrite E; cbn [snd after store].
  - unfold set_threads. cbn [users threads likes replies uploads].
    destruct (body_uploadId body) as [i|]; [rewrite T|]; reflexivity.
  - rewrite B, T. reflexivity.
Qed.

(** X9.  What a successful [add] leaves behind, for a fresh identifier:
    exactly one new row in the Thread table, under the generated
    identifier, with the content of the body, its image if that is a
    non-empty string, the store's time as time of creation and of update
    and the authenticated User as owner; the Upload named by a non-empty [uploadId] is gone
    from the Upload table; every other row of every table is as
    before. *)
Theorem add_success_effect (uuid authId : string) (body : Body) (w : World) :
  fst (add uuid authId body w) = success 201 "Add Thread Success" NoData ->
  threads (store w) !! uuid = None ->
  exists u,
    users (store w) !! authId = Some u
    /\ store (snd (add uuid authId body w))
       = {| users := users (store w);
            threads :=
              <[uuid := {| thread_content := body_content body;
                           thread_image := if truthy (body_image body)
                                           then body_image body else None;
                           thread_created_at := clock w;
                           thread_updated_at := clock w;
                           thread_user := user_id u |}]> (threads (store w));
            likes := likes (store w);
            replies := replies (store w);
            uploads := match body_uploadId body with
                       | Some uploadId =>
                           if truthy (Some uploadId)
                           then delete uploadId (uploads (store w))
                           else uploads (store w)
                       | None => uploads (store w)
                       end |}
    /\ (forall uploadId,
          body_uploadId body = Some uploadId -> uploadId <> "" ->
          uploads (store (snd (add uuid authId body w))) !! uploadId = None).
Proof.
  intros Ok Fr.
  destruct (add_success_store uuid authId body w Ok Fr) as (u & U & S).
  exists u. split; [exact U|]. split; [exact S|].
  intros uploadId B Ne. rewrite S. cbn [uploads]. rewrite B.
  unfold truthy. apply String.eqb_neq in Ne. rewrite Ne. cbn [negb].
  apply lookup_delete_eq.
Qed.

Lemma add_success_effect_witness :
  exists u,
    users usersOnly !! "u1" = Some u
    /\ uploads (store (snd (add otherId "u1"
                              {| body_content := "hello";
                                 body_image := Some "a.png";
                                 body_uploadId := Some "up1" |}
                              (calm usersOnly 9)))) !! "up1" = None.
Proof.
  destruct (add_success_effect otherId "u1"
              {| body_content := "hello"; body_image := Some "a.png";
                 body_uploadId := Some "up1" |}
              (calm usersOnly 9) eq_refl eq_refl)
    as (u & U & _ & D).
  exists u. split; [exact U|]. apply (D "up1" eq_refl). discriminate.
Defined.

(** ** Updating and deleting, continued *)





(** Restoring the content after a change is not the same as saving the
    unchanged content: the update time moves. *)
Example updateOne_restoring_content_moves_update_time :
  thread_updated_at
    <$> threads (store (snd (updateOne sampleId "first"
                               (snd (updateOne sampleId "edited"
                                       (calm sampleStore 9)))))) !! sampleId
  = Some 9%Z
  /\ thread_updated_at
       <$> threads (store (snd (updateOne sampleId "first"
                                  (calm sampleStore 9)))) !! sampleId
     = Some 5%Z.
Proof. split; vm_compute; reflexivity. Qed.

(** X12.  A successful [deleteOne] was given a well-formed identifier
    that carried a Thread; it removes that row and no other Thread, and
    leaves the User and Upload tables as they were.  Afterwards [findOne]
    and [updateOne] on that identifier answer NotFound (when the store
    answers their lookup), and [updateOne] does not bring the row
    back. *)
Theorem deleteOne_success_effect (threadId content : string) (w : World) :
  let w1 := snd (deleteOne threadId w) in
  fst (deleteOne threadId w) = success 200 "Delete One Thread Success" NoData ->
  isValidId threadId = true
  /\ is_Some (threads (store w) !! threadId)
  /\ threads (store w1) = delete threadId (threads (store w))
  /\ users (store w1) = users (store w)
  /\ uploads (store w1) = uploads (store w)
  /\ (fault w (length (log w) + 2) = false ->
      fst (findOne threadId w1) = handleError (threadNotFound threadId)
      /\ fst (updateOne threadId content w1)
         = handleError (threadNotFound threadId)
      /\ threads (store (snd (updateOne threadId content w1))) !! threadId
         = None).
Proof.
  cbv zeta. intros Ok.
  destruct (deleteOne_runs threadId w)
    as [(V & E) | [(V & F0 & E) | [(V & F0 & T & E)
        | (t & V & F0 & T & [(F1 & E) | (F1 & E)])]]];
    cbv zeta in *; try (rewrite E in Ok; discriminate Ok).
  rewrite E. cbn [snd after store]. split; [exact V|].
  split; [rewrite T; eauto|]. do 3 (split; [reflexivity|]).
  intros F2.
  remember (after w (delete_thread threadId (store w))
              [ThreadFindOne threadId false; ThreadDelete threadId]) as w1 eqn:W.
  assert (threads (store w1) !! threadId = None) as N
    by (subst w1; cbn; apply lookup_delete_eq).
  assert (fault w1 (length (log w1)) = false) as G
    by (subst w1; unfold after; norm_log; exact F2).
  clear W. split; [|split].
  - destruct (findOne_cases threadId w1)
      as [(V' & E') | [(V' & F' & E') | [(V' & F' & T' & E')
          | (t' & V' & F' & T' & E')]]];
      cbv zeta in *; try congruence.
    rewrite E'. reflexivity.
  - destruct (updateOne_runs threadId content w1)
      as [(V' & E') | [(V' & F' & E') | [(V' & F' & T' & E')
          | (t' & e & V' & F' & T' & _)]]];
      cbv zeta in *; try congruence.
    rewrite E'. reflexivity.
  - destruct (updateOne_cases threadId content w1)
      as [(E' & _) | (t' & T' & _)]; [|congruence].
    rewrite E'. exact N.
Qed.

Lemma deleteOne_success_effect_witness :
  threads (store (snd (deleteOne sampleId (calm sampleStore 9))))
  = delete sampleId (threads sampleStore)
  /\ fst (findOne sampleId (snd (deleteOne sampleId (calm sampleStore 9))))
     = handleError (threadNotFound sampleId).
Proof.
  destruct (deleteOne_success_effect sampleId "x" (calm sampleStore 9) eq_refl)
    as (_ & _ & D & _ & _ & A).
  split; [exact D|]. exact (proj1 (A eq_refl)).
Defined.

(** ** An invariant of the store *)

Lemma users_unchanged (r : Request) (w : World) :
  users (store (snd (handle r w))) = users (store w).
Proof.
  destruct r as [uuid authId body | q | threadId | threadId content | threadId];
    cbn [handle].
  - destruct (add_cases uuid authId body w)
      as [(F0 & E) | [(F0 & U & E) | (u & s1 & F0 & U & S & C)]];
      cbv zeta in *; try (rewrite E; reflexivity).
    destruct (save_new_thread (clock w) uuid body u (store w)) as (row & S' & _).
    rewrite S' in S. injection S as <-.
    destruct C as [(F1 & E) | [(F1 & T & E)
              | (uploadId & F1 & B & T & [(F2 & E) | (F2 & E)])]];
      rewrite E; reflexivity.
  - rewrite findAll_store. reflexivity.
  - rewrite findOne_store. reflexivity.
  - destruct (updateOne_cases threadId content w) as [(E & _) | (t & T & E & _)];
      rewrite E; reflexivity.
  - destruct (deleteOne_store threadId w) as [E | E]; rewrite E; reflexivity.
Qed.

(** X13.  Every Thread keeps an owner who exists: if every User row sits
    under its own identifier and every stored Thread is owned by a stored
    User, the same holds after any request, whatever the store refuses
    on the way. *)
Theorem owners_exist_is_kept (r : Request) (w : World) :
  users_keyed (store w) ->
  owners_exist (store w) ->
  users_keyed (store (snd (handle r w)))
  /\ owners_exist (store (snd (handle r w))).
Proof.
  intros K O. pose proof (users_unchanged r w) as U.
  split; [unfold users_keyed; rewrite U; exact K|].
  unfold users_keyed, owners_exist, map_Forall in *. rewrite U. clear U.
  destruct r as [uuid authId body | q | threadId | threadId content | threadId];
    cbn [handle].
  - destruct (add_cases uuid authId body w)
      as [(F0 & E) | [(F0 & U & E) | (u & s1 & F0 & U & S & C)]];
      cbv zeta in *; try (rewrite E; exact O).
    destruct (save_new_thread (clock w) uuid body u (store w))
      as (row & S' & _ & Ow & _).
    rewrite S' in S. injection S as <-.
    assert (forall id t,
               <[uuid := row]> (threads (store w)) !! id = Some t ->
               is_Some (users (store w) !! thread_user t)) as New.
    { intros id t H. destruct (decide (uuid = id)) as [->|Ne].
      - rewrite lookup_insert_eq in H. injection H as <-.
        rewrite Ow, (K _ _ U), U. eauto.
      - rewrite lookup_insert_ne in H by exact Ne. apply (O _ _ H). }
    destruct C as [(F1 & E) | [(F1 & T & E)
              | (uploadId & F1 & B & T & [(F2 & E) | (F2 & E)])]];
      rewrite E; first [exact O | exact New].
  - rewrite findAll_store. exact O.
  - rewrite findOne_store. exact O.
  - destruct (updateOne_cases threadId content w) as [(E & _) | (t & T & E & _)];
      rewrite E; [exact O|].
    intros id t' H. cbn in H. destruct (decide (threadId = id)) as [->|Ne].
    + rewrite lookup_insert_eq in H. injection H as <-.
      rewrite withContent_columns. apply (O _ _ T).
    + rewrite lookup_insert_ne in H by exact Ne. apply (O _ _ H).
  - destruct (deleteOne_store threadId w) as [E | E]; rewrite E; [exact O|].
    intros id t H. cbn in H. destruct (decide (threadId = id)) as [->|Ne].
    + rewrite lookup_delete_eq in H. discriminate H.
    + rewrite lookup_delete_ne in H by exact Ne. apply (O _ _ H).
Qed.

Lemma owners_exist_is_kept_witness :
  users_keyed
    (store (snd (handle (Add otherId "u2"
                           {| body_content := "hello"; body_image := None;
                              body_uploadId := None |})
                   (calm sampleStore 9))))
  /\ owners_exist
       (store (snd (handle (Add otherId "u2"
                              {| body_content := "hello"; body_image := None;
                                 body_uploadId := None |})
                      (calm sampleStore 9)))).
Proof.
  apply owners_exist_is_kept.
  - unfold users_keyed. refine (bool_decide_unpack _ _). vm_compute. exact I.
  - unfold owners_exist. refine (bool_decide_unpack _ _). vm_compute. exact I.
Defined.

(** ** The identifier pattern, continued *)

Lemma string_length_as_list s :
  String.length s = length (list_ascii_of_string s).
Proof. induction s as [|c s IH]; [reflexivity|]. cbn. f_equal. exact IH. Qed.

Lemma string_length_append s1 s2 :
  String.length (s1 ++ s2) = (String.length s1 + String.length s2)%nat.
Proof.
  induction s1 as [|c s1 IH]; [reflexivity|].
  change (S (String.length (s1 ++ s2))
          = S (String.length s1 + String.length s2)).
  f_equal. exact IH.
Qed.

Lemma isValidId_length s : isValidId s = true -> String.length s = 36%nat.
Proof.
  intros H. rewrite string_length_as_list.
  apply (match_pieces_length uuidRegex), H.
Qed.

(** X14.  The pattern is anchored at both ends: an accepted identifier
    has exactly 36 characters, and no string obtained from it by putting
    anything in front of it or behind it is accepted. *)
Theorem isValidId_is_anchored (s : string) :
  isValidId s = true ->
  String.length s = 36%nat
  /\ forall extra,
      extra <> "" ->
      isValidId (s ++ extra) = false /\ isValidId (extra ++ s) = false.
Proof.
  intros H. pose proof (isValidId_length s H) as L.
  split; [exact L|]. intros extra Ne.
  assert (String.length extra <> 0%nat) as Le
    by (destruct extra; [contradiction | discriminate]).
  split.
  - destruct (isValidId (s ++ extra)) eqn:E; [|reflexivity].
    apply isValidId_length in E. rewrite string_length_append in E. lia.
  - destruct (isValidId (extra ++ s)) eqn:E; [|reflexivity].
    apply isValidId_length in E. rewrite string_length_append in E. lia.
Qed.

Lemma isValidId_is_anchored_witness :
  String.length sampleId = 36%nat
  /\ isValidId (sampleId ++ " ") = false
  /\ isValidId ("{" ++ sampleId) = false.
Proof.
  destruct (isValidId_is_anchored sampleId eq_refl) as [L A].
  split; [exact L|]. split.
  - apply (A " "). discriminate.
  - apply (A "{"). discriminate.
Defined.

(** ** The newest Thread *)

Lemma newest_is_first rank (l : list (string * Thread)) (id : string)
    (t : Thread) :
  StronglySorted (newer_first rank) l ->
  NoDup l.*1 ->
  (id, t) ∈ l ->
  (forall k t', (k, t') ∈ l -> k <> id ->
     (thread_created_at t' < thread_created_at t)%Z) ->
  exists rest, l = (id, t) :: rest.
Proof.
  intros S N In Older. destruct l as [|[k t'] rest]; [inversion In|].
  exists rest. destruct (decide (k = id)) as [->|Ne].
  - apply elem_of_cons in In as [<-|In]; [reflexivity|].
    cbn in N. apply NoDup_cons in N as [N _]. exfalso. apply N.
    apply list_elem_of_fmap. exists (id, t). split; [reflexivity|exact In].
  - exfalso. apply elem_of_cons in In as [E|In]; [congruence|].
    apply StronglySorted_cons in S as [S _].
    rewrite Forall_forall in S. specialize (S _ In).
    apply newer_first_created in S. cbn in S.
    specialize (Older k t' (list_elem_of_here _ _) Ne). lia.
Qed.

(** X15.  A Thread just added is the first one listed: after an [add]
    that succeeded with a fresh identifier at a time of the store's clock
    later than the creation of every Thread stored so far, a [findAll]
    without page that the store answers starts with that Thread, carrying
    the content of the body. *)
Theorem added_thread_heads_first_page
    (uuid authId : string) (body : Body) (w : World) :
  let w1 := snd (add uuid authId body w) in
  fst (add uuid authId body w) = success 201 "Add Thread Success" NoData ->
  threads (store w) !! uuid = None ->
  map_Forall (fun _ t => (thread_created_at t < clock w)%Z) (threads (store w)) ->
  fault w1 (length (log w1)) = false ->
  exists item rest,
    fst (findAll QAbsent w1)
    = success 200 "Find All Thread Success" (ThreadList (item :: rest))
    /\ tv_id item = uuid
    /\ tv_content item = body_content body
    /\ tv_created_at item = clock w.
Proof.
  cbv zeta. intros Ok Fr Old F.
  destruct (add_success_store uuid authId body w Ok Fr) as (u & U & S).
  set (w1 := snd (add uuid authId body w)) in *.
  set (row := {| thread_content := body_content body;
                 thread_image := if truthy (body_image body)
                                 then body_image body else None;
                 thread_created_at := clock w;
                 thread_updated_at := clock w;
                 thread_user := user_id u |}) in *.
  assert (threads (store w1) = <[uuid := row]> (threads (store w))) as Th
    by (rewrite S; reflexivity).
  destruct (newest_is_first (ties w1 (length (log w1)))
              (by_created_at_desc (ties w1 (length (log w1))) (store w1))
              uuid row)
    as [tl Hd].
  - apply by_created_at_desc_sorted.
  - apply by_created_at_desc_keys_NoDup.
  - rewrite by_created_at_desc_all. apply elem_of_map_to_list.
    rewrite Th. apply lookup_insert_eq.
  - intros k t' In Ne. rewrite by_created_at_desc_all in In.
    apply elem_of_map_to_list in In. rewrite Th in In.
    rewrite lookup_insert_ne in In by congruence.
    apply (Old _ _ In).
  - rewrite (findAll_answer QAbsent 1 w1 eq_refl ltac:(lia) F). cbn [fst].
    change (Z.to_nat ((1 - 1) * 10)) with 0%nat.
    rewrite Hd. cbn [drop take map].
    do 2 eexists. split; [reflexivity|]. repeat split.
Qed.

Lemma added_thread_heads_first_page_witness :
  exists item rest,
    fst (findAll QAbsent
           (snd (add otherId "u1"
                   {| body_content := "hello"; body_image := None;
                      body_uploadId := None |}
                   (calm sampleStore 9))))
    = success 200 "Find All Thread Success" (ThreadList (item :: rest))
    /\ tv_id item = otherId
    /\ tv_content item = "hello"
    /\ tv_created_at item = 9%Z.
Proof.
  apply (added_thread_heads_first_page otherId "u1"
           {| body_content := "hello"; body_image := None;
              body_uploadId := None |}
           (calm sampleStore 9) eq_refl eq_refl).
  - refine (bool_decide_unpack _ _). vm_compute. exact I.
  - reflexivity.
Defined.

(** ** Reads, failures and other Threads *)



(** Two Threads created at the same time, listed in one order and then
    in the other. *)
Example findAll_again_on_twins :
  map tv_id <$> listed (fst (findAll QAbsent (fickle twinStore 9)))
  = Some ["A"; "B"]
  /\ map tv_id
       <$> listed (fst (findAll QAbsent
                          (snd (findAll QAbsent (fickle twinStore 9)))))
     = Some ["B"; "A"].
Proof. split; vm_compute; reflexivity. Qed.

(** X17.  A request that fails leaves every table as it was, with one
    exception: an [add] whose Upload deletion the store refused, which
    has already saved its Thread. *)
Theorem failed_request_changes_nothing (r : Request) (w : World) (e : Error) :
  fst (handle r w) = Failed e ->
  (forall id, e <> StoreError (UploadDelete id)) ->
  store (snd (handle r w)) = store w.
Proof.
  intros Ko Ne.
  destruct r as [uuid authId body | q | threadId | threadId content | threadId];
    cbn [handle] in *.
  - destruct (add_cases uuid authId body w)
      as [(F0 & E) | [(F0 & U & E) | (u & s1 & F0 & U & S & C)]];
      cbv zeta in *; try (rewrite E; reflexivity).
    destruct C as [(F1 & E) | [(F1 & T & E)
              | (uploadId & F1 & B & T & [(F2 & E) | (F2 & E)])]];
      rewrite E in *; cbn [fst] in Ko; try discriminate Ko;
      try reflexivity.
    injection Ko as <-. destruct (Ne uploadId eq_refl).
  - apply findAll_store.
  - apply findOne_store.
  - destruct (updateOne_cases threadId content w) as [(E & _) | (t & _ & _ & Ok)];
      [exact E | rewrite Ok in Ko; discriminate Ko].
  - destruct (deleteOne_runs threadId w)
      as [(V & E) | [(V & F0 & E) | [(V & F0 & T & E)
          | (t & V & F0 & T & [(F1 & E) | (F1 & E)])]]];
      cbv zeta in *; rewrite E in *; try reflexivity.
    discriminate Ko.
Qed.

Lemma failed_request_changes_nothing_witness :
  store (snd (handle (UpdateOne sampleId "edited") (refusing 1 sampleStore 9)))
  = store (refusing 1 sampleStore 9).
Proof.
  apply (failed_request_changes_nothing (UpdateOne sampleId "edited")
           (refusing 1 sampleStore 9)
           (StoreError
              (ThreadSave {| e_id := sampleId; e_content := "edited";
                             e_image := Some "a.png"; e_user := None |}))
           eq_refl).
  intros id. discriminate.
Defined.



